(** * Decorators.ipynb: the memoizing [cache] decorator, [count_calls],
    the [fibonacci] cells and the [singleton] decorator.

    The notebook's decorators are closures that keep mutable state in
    function attributes ([wrapper_cache.cache], [wrapper_count_calls.num_calls],
    [wrapper_singleton.instance]).  They are embedded here as computations in
    a state-and-exception monad over a record holding those attributes.
    A Python exception keeps every mutation made before it was raised, so a
    computation returns its outcome together with the final state in both
    cases. *)

From Stdlib Require Import ZArith List String Bool Lia Permutation.
From Stdlib Require Import DecimalString.
Import ListNotations.
Open Scope string_scope.
Open Scope list_scope.
Open Scope Z_scope.

(* ===================================================================== *)
(** ** Python values *)
(* ===================================================================== *)

(** The values the cells pass around: [None], booleans, integers, strings,
    tuples (hashable when their items are) and lists (never hashable). *)
#[warnings="-register-all"]
Inductive value : Type :=
| VNone
| VBool (b : bool)
| VInt (z : Z)
| VStr (s : string)
| VTuple (items : list value)
| VList (items : list value).

(** [**kwargs]: keyword names with their values, in the order of the call. *)
Definition kwargs_t := list (string * value).

Section ValueInd.
Variable P : value -> Prop.
Hypothesis HNone : P VNone.
Hypothesis HBool : forall b, P (VBool b).
Hypothesis HInt : forall z, P (VInt z).
Hypothesis HStr : forall s, P (VStr s).
Hypothesis HTuple : forall l, Forall P l -> P (VTuple l).
Hypothesis HList : forall l, Forall P l -> P (VList l).

Fixpoint value_ind' (v : value) : P v :=
  match v with
  | VNone => HNone
  | VBool b => HBool b
  | VInt z => HInt z
  | VStr s => HStr s
  | VTuple l =>
      HTuple l ((fix go (l : list value) : Forall P l :=
                 match l with
                 | [] => Forall_nil P
                 | x :: r => Forall_cons x (value_ind' x) (go r)
                 end) l)
  | VList l =>
      HList l ((fix go (l : list value) : Forall P l :=
                match l with
                | [] => Forall_nil P
                | x :: r => Forall_cons x (value_ind' x) (go r)
                end) l)
  end.
End ValueInd.

(** [bool] is a subclass of [int]: [True == 1] and [False == 0]. *)
Definition as_int (v : value) : option Z :=
  match v with
  | VBool b => Some (Z.b2z b)
  | VInt z => Some z
  | _ => None
  end.

(** Python's [==] on these values.  Sequences compare item by item and
    only with a sequence of the same type. *)
Fixpoint py_eqb (x y : value) {struct x} : bool :=
  match x, y with
  | VNone, VNone => true
  | VBool a, VBool b => Z.b2z a =? Z.b2z b
  | VBool a, VInt b => Z.b2z a =? b
  | VInt a, VBool b => a =? Z.b2z b
  | VInt a, VInt b => a =? b
  | VStr s, VStr t => String.eqb s t
  | VTuple l, VTuple m =>
      (fix seq (l m : list value) {struct l} : bool :=
         match l, m with
         | [], [] => true
         | a :: l', b :: m' => py_eqb a b && seq l' m'
         | _, _ => false
         end) l m
  | VList l, VList m =>
      (fix seq (l m : list value) {struct l} : bool :=
         match l, m with
         | [], [] => true
         | a :: l', b :: m' => py_eqb a b && seq l' m'
         | _, _ => false
         end) l m
  | _, _ => false
  end.

(** Item-wise comparison of two sequences, as a function of its own. *)
Fixpoint seq_eqb (l m : list value) : bool :=
  match l, m with
  | [], [] => true
  | a :: l', b :: m' => py_eqb a b && seq_eqb l' m'
  | _, _ => false
  end.

(** [hash(v)] succeeds: lists are unhashable, a tuple hashes its items. *)
Fixpoint hashable (v : value) : bool :=
  match v with
  | VList _ => false
  | VTuple l => forallb hashable l
  | _ => true
  end.

(** Canonical representative of a value up to [==]: booleans become the
    integers they equal. *)
Fixpoint canon (v : value) : value :=
  match v with
  | VBool b => VInt (Z.b2z b)
  | VTuple l => VTuple (map canon l)
  | VList l => VList (map canon l)
  | _ => v
  end.

(* ===================================================================== *)
(** ** Exceptions, outcomes and the monad *)
(* ===================================================================== *)

Inductive exn : Type :=
| TypeError (msg : string)
| KeyError (key : value)
| RecursionError
| UserError (payload : value).

Inductive outcome (A : Type) : Type :=
| Ret (a : A)
| Raise (e : exn).
Arguments Ret {A} a.
Arguments Raise {A} e.

(** [dict]: entries in insertion order, keys pairwise different under [==]. *)
Definition dict := list (value * value).

(** The function attributes the decorators keep, and the printed lines. *)
Record World : Type := mkWorld {
  cache : dict;               (* wrapper_cache.cache *)
  num_calls : nat;            (* wrapper_count_calls.num_calls *)
  stdout : list string        (* lines written by print *)
}.

Definition M (A : Type) : Type := World -> outcome A * World.

Definition ret {A} (a : A) : M A := fun w => (Ret a, w).
Definition raise {A} (e : exn) : M A := fun w => (Raise e, w).
Definition bind {A B} (c : M A) (k : A -> M B) : M B :=
  fun w => match c w with
           | (Ret a, w') => k a w'
           | (Raise e, w') => (Raise e, w')
           end.

Declare Scope py_scope.
Delimit Scope py_scope with py.
Notation "x <- c ;; k" := (bind c (fun x => k))
  (at level 61, c at next level, right associativity) : py_scope.
Notation "c ;; k" := (bind c (fun _ => k))
  (at level 61, right associativity) : py_scope.
Open Scope py_scope.

Definition lift_outcome {A} (o : outcome A) : M A := fun w => (o, w).
Definition get_cache : M dict := fun w => (Ret (cache w), w).
Definition set_cache (d : dict) : M unit :=
  fun w => (Ret tt, mkWorld d (num_calls w) (stdout w)).
Definition get_num_calls : M nat := fun w => (Ret (num_calls w), w).
Definition set_num_calls (n : nat) : M unit :=
  fun w => (Ret tt, mkWorld (cache w) n (stdout w)).
Definition print (line : string) : M unit :=
  fun w => (Ret tt, mkWorld (cache w) (num_calls w) (stdout w ++ [line])).

(** A callable taking [*args] and [**kwargs]. *)
Definition func_t := list value -> kwargs_t -> M value.

(* ===================================================================== *)
(** ** Hashing and the built-in [dict] *)
(* ===================================================================== *)

(** [hash(v)]: only whether it succeeds matters to a dictionary whose keys
    it compares with [==]; the one unhashable type here is [list]. *)
Definition py_hash (v : value) : outcome unit :=
  if hashable v then Ret tt else Raise (TypeError "unhashable type: 'list'").

(** [k in d], once [k] has been hashed. *)
Fixpoint dict_contains (d : dict) (k : value) : bool :=
  match d with
  | [] => false
  | (k', _) :: d' => py_eqb k' k || dict_contains d' k
  end.

(** [d[k]], once [k] has been hashed; [None] stands for [KeyError]. *)
Fixpoint dict_get (d : dict) (k : value) : option value :=
  match d with
  | [] => None
  | (k', v) :: d' => if py_eqb k' k then Some v else dict_get d' k
  end.

(** [d[k] = v]: an equal key keeps its place (and the key object first
    inserted), a new key goes last. *)
Fixpoint dict_set (d : dict) (k v : value) : dict :=
  match d with
  | [] => [(k, v)]
  | (k', v') :: d' =>
      if py_eqb k' k then (k', v) :: d' else (k', v') :: dict_set d' k v
  end.

(** [del d[k]] for a key that may be absent. *)
Fixpoint dict_remove (d : dict) (k : value) : dict :=
  match d with
  | [] => []
  | (k', v') :: d' =>
      if py_eqb k' k then d' else (k', v') :: dict_remove d' k
  end.

(* ===================================================================== *)
(** ** [cache] (cell 53) *)
(* ===================================================================== *)

(** One item of [kwargs.items()]: the pair [(name, value)]. *)
Definition kw_item (kv : string * value) : value :=
  VTuple [VStr (fst kv); snd kv].

(** [cache_key = args + tuple(kwargs.items())] *)
Definition make_key (args : list value) (kwargs : kwargs_t) : value :=
  VTuple (args ++ map kw_item kwargs).

(** [[
def wrapper_cache( *args, **kwargs):
    cache_key = args + tuple(kwargs.items())
    if cache_key not in wrapper_cache.cache:
        wrapper_cache.cache[cache_key] = func( *args, **kwargs)
    return wrapper_cache.cache[cache_key]
]] *)
Definition wrapper_cache (func : func_t) : func_t :=
  fun args kwargs =>
    let cache_key := make_key args kwargs in
    lift_outcome (py_hash cache_key) ;;
    c <- get_cache ;;
    (if negb (dict_contains c cache_key) then
       result <- func args kwargs ;;
       c' <- get_cache ;;
       set_cache (dict_set c' cache_key result)
     else ret tt) ;;
    c'' <- get_cache ;;
    match dict_get c'' cache_key with
    | Some v => ret v
    | None => raise (KeyError cache_key)
    end.

(** [wrapper_cache.cache = dict()], [wrapper_count_calls.num_calls = 0]
    and nothing printed yet: the state right after the decorators ran. *)
Definition initial_world : World := mkWorld [] 0 [].

(* ===================================================================== *)
(** ** [count_calls] (cell 31) *)
(* ===================================================================== *)

Definition str_of_nat (n : nat) : string :=
  NilEmpty.string_of_uint (Nat.to_uint n).

(** The line [f"Call {num_calls} of {func.__name__!r}"]. *)
Definition call_line (name : string) (n : nat) : string :=
  String.append "Call "
    (String.append (str_of_nat n)
       (String.append " of '" (String.append name "'"))).

(** [[
def wrapper_count_calls( *args, **kwargs):
    wrapper_count_calls.num_calls += 1
    print(f"Call {wrapper_count_calls.num_calls} of {func.__name__!r}")
    return func( *args, **kwargs)
]] *)
Definition count_calls (name : string) (func : func_t) : func_t :=
  fun args kwargs =>
    n <- get_num_calls ;;
    set_num_calls (S n) ;;
    n' <- get_num_calls ;;
    print (call_line name n') ;;
    func args kwargs.

(** A function without effects: its outcome depends on the arguments only
    and it leaves the state alone. *)
Definition pure_func (f : list value -> kwargs_t -> outcome value) : func_t :=
  fun args kwargs => lift_outcome (f args kwargs).

(* ===================================================================== *)
(** ** [fibonacci] (cells 49 and 53) *)
(* ===================================================================== *)

(** [a < b] as the cell uses it, against an [int]: numbers compare, any
    other operand type is not ordered against [int]. *)
Definition py_lt (a b : value) : outcome bool :=
  match as_int a, as_int b with
  | Some x, Some y => Ret (x <? y)
  | _, _ => Raise (TypeError "'<' not supported between these operands")
  end.

(** [a - b] as the cell uses it, with an [int] on the right. *)
Definition py_sub (a b : value) : outcome value :=
  match as_int a, as_int b with
  | Some x, Some y => Ret (VInt (x - y))
  | _, _ => Raise (TypeError "unsupported operand type(s) for -")
  end.

(** [a + b]: numbers add, sequences of one type concatenate. *)
Definition py_add (a b : value) : outcome value :=
  match as_int a, as_int b with
  | Some x, Some y => Ret (VInt (x + y))
  | _, _ =>
      match a, b with
      | VStr s, VStr t => Ret (VStr (String.append s t))
      | VTuple l, VTuple m => Ret (VTuple (l ++ m))
      | VList l, VList m => Ret (VList (l ++ m))
      | _, _ => Raise (TypeError "unsupported operand type(s) for +")
      end
  end.

(** Binding of a call to the one parameter [num]: one positional value or
    the keyword [num]; any other call shape is a [TypeError]. *)
Definition bind_num (args : list value) (kwargs : kwargs_t) : outcome value :=
  match args, kwargs with
  | [v], [] => Ret v
  | [], [(name, v)] =>
      if String.eqb name "num" then Ret v
      else Raise (TypeError "fibonacci() got an unexpected keyword argument")
  | _, _ => Raise (TypeError "fibonacci() called with the wrong arguments")
  end.

(** [[
def fibonacci(num):
    if num < 2:
        return num
    return fibonacci(num - 1) + fibonacci(num - 2)
]]
    The name [fibonacci] in the body is the module-level name, that is the
    decorated function: it is the parameter [self]. *)
Definition fibonacci_body (self : func_t) : func_t :=
  fun args kwargs =>
    num <- lift_outcome (bind_num args kwargs) ;;
    small <- lift_outcome (py_lt num (VInt 2)) ;;
    if (small : bool) then ret num
    else
      n1 <- lift_outcome (py_sub num (VInt 1)) ;;
      a <- self [n1] [] ;;
      n2 <- lift_outcome (py_sub num (VInt 2)) ;;
      b <- self [n2] [] ;;
      lift_outcome (py_add a b).

(** Cell 49: [@count_calls def fibonacci].  [depth] bounds the nesting of
    calls, as the interpreter's recursion limit does. *)
Fixpoint fibonacci_counted (depth : nat) : func_t :=
  match depth with
  | O => fun _ _ => raise RecursionError
  | S d => count_calls "fibonacci" (fibonacci_body (fibonacci_counted d))
  end.

(** Cell 53: [@cache @count_calls def fibonacci]. *)
Fixpoint fibonacci (depth : nat) : func_t :=
  match depth with
  | O => fun _ _ => raise RecursionError
  | S d => wrapper_cache (count_calls "fibonacci" (fibonacci_body (fibonacci d)))
  end.

Definition int_key (n : Z) : value := make_key [VInt n] [].

(** The state after [wrapper_cache] stored a result. *)
Definition store (w : World) (k v : value) : World :=
  mkWorld (dict_set (cache w) k v) (num_calls w) (stdout w).

(** What [count_calls] does to the state before it calls [func]. *)
Definition counted (name : string) (w : World) : World :=
  mkWorld (cache w) (S (num_calls w))
    (stdout w ++ [call_line name (S (num_calls w))]).

(** A history of calls made one after the other, outcomes dropped. *)
Definition call_t := (list value * kwargs_t)%type.

Fixpoint run_calls (func : func_t) (calls : list call_t) (w : World) : World :=
  match calls with
  | [] => w
  | (args, kwargs) :: rest => run_calls func rest (snd (func args kwargs w))
  end.

Definition call_key (c : call_t) : value := make_key (fst c) (snd c).

(* ===================================================================== *)
(** ** The bounded variant (cell 57 uses [functools.lru_cache]) *)
(* ===================================================================== *)

(** Recency order is the order of the entries: the least recently used
    entry is first, the most recently used one is last. *)
Definition lru_touch (d : dict) (k v : value) : dict :=
  dict_remove d k ++ [(k, v)].

(** Drop the least recently used entry when there are more than [maxsize]
    entries; [None] is the unbounded cache. *)
Definition lru_evict (maxsize : option nat) (d : dict) : dict :=
  match maxsize with
  | None => d
  | Some n => if (n <? List.length d)%nat then tl d else d
  end.

(** Modelled from the spec: the wrapper that [functools.lru_cache(maxsize)]
    returns.  Cell 57 only applies it; its code is the standard library's
    and is not part of the notebook.  This follows section 4.1 of the
    specification: build the key as [cache] does; on a hit return the stored
    result and make the key the most recently used; on a miss compute, insert
    as most recently used and, if the entries now exceed [maxsize], evict the
    least recently used one; an unhashable argument is an error before any
    computation, and a failure of the function is not stored. *)
Definition lru_wrapper (maxsize : option nat) (func : func_t) : func_t :=
  fun args kwargs =>
    let cache_key := make_key args kwargs in
    lift_outcome (py_hash cache_key) ;;
    c <- get_cache ;;
    match dict_get c cache_key with
    | Some v =>
        set_cache (lru_touch c cache_key v) ;;
        ret v
    | None =>
        result <- func args kwargs ;;
        c' <- get_cache ;;
        set_cache (lru_evict maxsize (lru_touch c' cache_key result)) ;;
        ret result
    end.

(* ===================================================================== *)
(** ** [singleton] (cell 43) *)
(* ===================================================================== *)

Module Singleton.

(** An instance of the decorated class: its identity ([id(obj)], here the
    number of instances built before it) and its truth value, which the
    class fixes through [__bool__] or [__len__] ([True] when it defines
    neither, as [TheOne] does). *)
Record obj : Type := mkObj { obj_id : nat; obj_truthy : bool }.

(** [wrapper_singleton.instance] ([None] at first) and the number of
    instances the class has built. *)
Record state : Type := mkState {
  instance : option obj;
  constructed : nat
}.

(** The decorated class, as far as the decorator can tell: given the
    arguments of the call, [__init__] raises or the new instance has the
    truth value returned. *)
Definition cls_t := list value -> kwargs_t -> outcome bool.

(** [cls( *args, **kwargs)] *)
Definition construct (cls : cls_t) (args : list value) (kwargs : kwargs_t)
    (s : state) : outcome obj * state :=
  match cls args kwargs with
  | Ret t => (Ret (mkObj (constructed s) t),
              mkState (instance s) (S (constructed s)))
  | Raise e => (Raise e, s)
  end.

(** [bool(wrapper_singleton.instance)]: [None] is false. *)
Definition instance_truthy (s : state) : bool :=
  match instance s with
  | None => false
  | Some o => obj_truthy o
  end.

(** [[
def wrapper_singleton( *args, **kwargs):
  if not wrapper_singleton.instance:
      wrapper_singleton.instance = cls( *args, **kwargs)
  return wrapper_singleton.instance
]] *)
Definition wrapper_singleton (cls : cls_t) (args : list value)
    (kwargs : kwargs_t) (s : state) : outcome (option obj) * state :=
  if negb (instance_truthy s) then
    match construct cls args kwargs s with
    | (Ret o, s1) =>
        let s2 := mkState (Some o) (constructed s1) in
        (Ret (instance s2), s2)
    | (Raise e, s1) => (Raise e, s1)
    end
  else (Ret (instance s), s).

(** [wrapper_singleton.instance = None] *)
Definition initial_state : state := mkState None 0.

(** The outcomes of a sequence of calls, with the final state. *)
Fixpoint run (cls : cls_t) (calls : list call_t) (s : state)
    : list (outcome (option obj)) * state :=
  match calls with
  | [] => ([], s)
  | (args, kwargs) :: rest =>
      let (r, s1) := wrapper_singleton cls args kwargs s in
      let (rs, s2) := run cls rest s1 in
      (r :: rs, s2)
  end.

(** [class TheOne: pass]: no parameters, instances are true. *)
Definition TheOne : cls_t :=
  fun args kwargs =>
    match args, kwargs with
    | [], [] => Ret true
    | _, _ => Raise (TypeError "TheOne() takes no arguments")
    end.

(** A class whose instances are false:
    [class Empty:  def __init__(self, *a, **k): pass;
                   def __len__(self): return 0]. *)
Definition Empty : cls_t := fun _ _ => Ret false.

End Singleton.

(* ===================================================================== *)
(** ** Sample functions to decorate *)
(* ===================================================================== *)

(** [def count_positional( *args, **kwargs): return len(args)] *)
Definition count_positional (args : list value) (kwargs : kwargs_t)
    : outcome value :=
  Ret (VInt (Z.of_nat (List.length args))).

(** [def always_fails( *args, **kwargs): raise Exception(args)] *)
Definition always_fails (args : list value) (kwargs : kwargs_t)
    : outcome value :=
  Raise (UserError (VTuple args)).

(** Every entry of the dictionary [d] was computed by [f] at a call of
    [history] whose key equals the entry's key. *)
Definition cache_from (f : list value -> kwargs_t -> outcome value)
    (history : list call_t) (d : dict) : Prop :=
  forall k v, In (k, v) d ->
    exists c, In c history /\ py_eqb (call_key c) k = true /\
              f (fst c) (snd c) = Ret v.

(** Two calls differ in a way the key can see: with the same number of
    positional arguments, some positional value or some keyword item
    differs under [==]; or the total numbers of arguments differ; or, in
    general, the positional values followed by the keyword items differ
    as sequences.  (The last case contains the other two.) *)
Definition calls_differ (a1 : list value) (kw1 : kwargs_t)
    (a2 : list value) (kw2 : kwargs_t) : Prop :=
  (List.length a1 = List.length a2 /\
   (seq_eqb a1 a2 = false \/
    seq_eqb (map kw_item kw1) (map kw_item kw2) = false)) \/
  (List.length a1 + List.length kw1 <> List.length a2 + List.length kw2)%nat \/
  seq_eqb (a1 ++ map kw_item kw1) (a2 ++ map kw_item kw2) = false.

(* ===================================================================== *)
(** ** Reference functions for the Fibonacci cells *)
(* ===================================================================== *)

(** The Fibonacci numbers. *)
Fixpoint fib (n : nat) : nat :=
  match n with
  | O => 0
  | S m => match m with
           | O => 1
           | S k => fib m + fib k
           end
  end%nat.

(** Invocations made by the recursion of cell 49 for the argument [n]. *)
Fixpoint naive_calls (n : nat) : nat :=
  match n with
  | O => 1
  | S m => match m with
           | O => 1
           | S k => 1 + naive_calls m + naive_calls k
           end
  end%nat.

(** The dictionary of cell 53 after [fibonacci(n)] on an empty cache, for
    [n >= 2]: the results in the order they were computed. *)
Definition fib_entry (k : nat) : value * value :=
  (int_key (Z.of_nat k), VInt (Z.of_nat (fib k))).

Definition fib_cache (n : nat) : dict :=
  fib_entry 1 :: fib_entry 0 :: map fib_entry (seq 2 (n - 1)).

(** The lines [count_calls] prints for invocations [first], [first + 1],
    ... ([count] of them). *)
Definition call_lines (name : string) (first count : nat) : list string :=
  map (call_line name) (seq first count).

(* ===================================================================== *)
(** ** Exceptions and formatting shared by the other cells *)
(* ===================================================================== *)

(** An exception of a built-in class that [exn] has no constructor for,
    kept as its class name and its message. *)
Definition builtin_exn (cls msg : string) : exn :=
  UserError (VTuple [VStr cls; VStr msg]).

(** [str(n)] for an integer. *)
Definition str_of_Z (z : Z) : string :=
  NilEmpty.string_of_int (Z.to_int z).

(** [str(v)] for the numbers: a [bool] prints as [True] or [False]. *)
Definition str_of_num (v : value) : option string :=
  match v with
  | VBool true => Some "True"
  | VBool false => Some "False"
  | VInt z => Some (str_of_Z z)
  | _ => None
  end.

(** The state after [print] wrote these lines. *)
Definition printed (w : World) (lines : list string) : World :=
  mkWorld (cache w) (num_calls w) (stdout w ++ lines).

(** The line [f"Call {n} of {name!r}"] for an integer [n]. *)
Definition call_line_Z (name : string) (n : Z) : string :=
  String.append "Call "
    (String.append (str_of_Z n)
       (String.append " of '" (String.append name "'"))).

(* ===================================================================== *)
(** ** [repeat] (cells 23 and 27) *)
(* ===================================================================== *)

Module Repeat.

(** [[
for _ in range(num_times):
    value = func( *args, **kwargs)
]]
    The local variable [value], here [val], is unbound ([None]) until the
    first iteration assigns it. *)
Fixpoint loop (iterations : nat) (func : func_t) (args : list value)
    (kwargs : kwargs_t) (val : option value) : M (option value) :=
  match iterations with
  | O => ret val
  | S n =>
      v <- func args kwargs ;;
      loop n func args kwargs (Some v)
  end.

(** [[
def wrapper_repeat( *args, **kwargs):
    for _ in range(num_times):
        value = func( *args, **kwargs)
    return value
]]
    [range] is empty for [num_times <= 0], and [return value] then reads a
    local variable that was never assigned. *)
Definition wrapper_repeat (num_times : Z) (func : func_t) : func_t :=
  fun args kwargs =>
    val <- loop (Z.to_nat num_times) func args kwargs None ;;
    match val with
    | Some v => ret v
    | None =>
        raise (builtin_exn "UnboundLocalError"
                 "local variable 'value' referenced before assignment")
    end.

(** Cell 27: [def repeat(_func=None, *, num_times=2)] returns the decorator
    when called with arguments only and the decorated function when given the
    function. *)
Definition repeat (_func : option func_t) (num_times : option Z)
    : (func_t -> func_t) + func_t :=
  let num_times := match num_times with Some n => n | None => 2 end in
  match _func with
  | None => inl (wrapper_repeat num_times)
  | Some func => inr (wrapper_repeat num_times func)
  end.

End Repeat.

(* ===================================================================== *)
(** ** [slow_down] and [countdown] (cell 13) *)
(* ===================================================================== *)

(** [time.sleep(seconds)]: the call blocks and then returns; the state
    followed here (the decorators' attributes and the printed lines) has no
    clock, so nothing in it changes. *)
Definition time_sleep (seconds : Z) : M unit := ret tt.

(** [[
def wrapper( *args, **kwargs):
    time.sleep(1)
    return func( *args, **kwargs)
]] *)
Definition slow_down (func : func_t) : func_t :=
  fun args kwargs =>
    time_sleep 1 ;;
    func args kwargs.

(** Binding of a call to a single parameter named [param]. *)
Definition bind_one (param : string) (args : list value) (kwargs : kwargs_t)
    : outcome value :=
  match args, kwargs with
  | [v], [] => Ret v
  | [], [(name, v)] =>
      if String.eqb name param then Ret v
      else Raise (TypeError "got an unexpected keyword argument")
  | _, _ => Raise (TypeError "called with the wrong arguments")
  end.

(** [[
def countdown(from_number):
    if from_number < 1 :
        print("Liftoff!")
    else:
        print(from_number)
        countdown(from_number - 1)
]]
    [countdown] in the body is the decorated function, the parameter
    [self].  Only numbers get past the comparison, so [print] only ever
    formats a number. *)
Definition countdown_body (self : func_t) : func_t :=
  fun args kwargs =>
    from_number <- lift_outcome (bind_one "from_number" args kwargs) ;;
    small <- lift_outcome (py_lt from_number (VInt 1)) ;;
    if (small : bool) then
      print "Liftoff!" ;;
      ret VNone
    else
      match str_of_num from_number with
      | Some line => print line
      | None => raise (TypeError "__str__ returned non-string")
      end ;;
      n1 <- lift_outcome (py_sub from_number (VInt 1)) ;;
      self [n1] [] ;;
      ret VNone.

(** [@slow_down def countdown]; [depth] bounds the nesting of calls. *)
Fixpoint countdown (depth : nat) : func_t :=
  match depth with
  | O => fun _ _ => raise RecursionError
  | S d => slow_down (countdown_body (countdown d))
  end.

(** The lines [n], [n - 1], ..., [1]. *)
Fixpoint countdown_lines (n : nat) : list string :=
  match n with
  | O => []
  | S m => str_of_Z (Z.of_nat (S m)) :: countdown_lines m
  end.

(* ===================================================================== *)
(** ** [Counter] (cell 36) *)
(* ===================================================================== *)

Module Counter.

(** An instance: its attribute [count]. *)
Record t : Type := mk { count : Z }.

(** [def __init__(self, start=0): self.count = start] *)
Definition init (start : option Z) : t :=
  mk (match start with Some s => s | None => 0 end).

(** [[
def __call__(self):
    self.count += 1
    print(f"Current count is {self.count}")
]]
    The call returns [None]; what is returned here is the instance after
    the call. *)
Definition call (self : t) : M t :=
  let self' := mk (count self + 1) in
  print (String.append "Current count is " (str_of_Z (count self'))) ;;
  ret self'.

(** [n] calls in a row. *)
Fixpoint calls (n : nat) (self : t) : M t :=
  match n with
  | O => ret self
  | S m => self' <- call self ;; calls m self'
  end.

(** The lines printed by [n] calls that start with the count at [c]. *)
Fixpoint lines (n : nat) (c : Z) : list string :=
  match n with
  | O => []
  | S m => String.append "Current count is " (str_of_Z (c + 1))
           :: lines m (c + 1)
  end.

End Counter.

(* ===================================================================== *)
(** ** [CountCalls] (cell 40) *)
(* ===================================================================== *)

Module CountCalls.

(** A function object as the class sees it: [__module__], [__name__]
    (also its [__qualname__], for a function defined in a cell),
    [__doc__], the data attributes in its [__dict__], and what calling it
    does. *)
Record pyfunc : Type := mkFunc {
  fn_module : string;
  fn_name : string;
  fn_doc : value;
  fn_dict : list (string * value);
  fn_call : func_t
}.

Fixpoint attr_get (d : list (string * value)) (name : string) : option value :=
  match d with
  | [] => None
  | (n, v) :: d' => if String.eqb n name then Some v else attr_get d' name
  end.

Fixpoint attr_set (d : list (string * value)) (name : string) (v : value)
    : list (string * value) :=
  match d with
  | [] => [(name, v)]
  | (n, v') :: d' =>
      if String.eqb n name then (n, v) :: d' else (n, v') :: attr_set d' name v
  end.

(** [self.__dict__.update(d)] *)
Definition attr_update (self_dict d : list (string * value))
    : list (string * value) :=
  fold_left (fun acc kv => attr_set acc (fst kv) (snd kv)) d self_dict.

(** An instance: the wrapped function (the attributes [func] and
    [__wrapped__]) and the data attributes of its [__dict__]. *)
Record t : Type := mk {
  func : pyfunc;
  attrs : list (string * value)
}.

(** [[
def __init__(self, func):
    functools.update_wrapper(self, func)
    self.func = func
    self.num_call = 0
]]
    [update_wrapper] copies [__module__], [__name__], [__qualname__] and
    [__doc__] and then updates the instance's [__dict__] with the
    function's. *)
Definition init (f : pyfunc) : t :=
  let copied :=
    attr_update [("__module__", VStr (fn_module f));
                 ("__name__", VStr (fn_name f));
                 ("__qualname__", VStr (fn_name f));
                 ("__doc__", fn_doc f)] (fn_dict f) in
  mk f (attr_set copied "num_call" (VInt 0)).

(** [[
def __call__(self, *args, **kwargs):
    self.num_calls += 1
    print(f"Call {self.num_calls} of {self.func.__name__!r}")
    return self.func( *args, **kwargs)
]]
    Reading [self.num_calls] fails when the instance has no such
    attribute (the class has none either); [+= 1] needs a number. *)
Definition call (self : t) (args : list value) (kwargs : kwargs_t)
    (w : World) : outcome value * (t * World) :=
  match attr_get (attrs self) "num_calls" with
  | None =>
      (Raise (builtin_exn "AttributeError"
                "'CountCalls' object has no attribute 'num_calls'"),
       (self, w))
  | Some v =>
      match as_int v with
      | None => (Raise (TypeError "unsupported operand type(s) for +="),
                 (self, w))
      | Some z =>
          let self' := mk (func self)
                         (attr_set (attrs self) "num_calls" (VInt (z + 1))) in
          let line := call_line_Z (fn_name (func self)) (z + 1) in
          match (print line ;; fn_call (func self) args kwargs) w with
          | (r, w') => (r, (self', w'))
          end
      end
  end.

(** A sequence of calls on one instance, outcomes collected. *)
Fixpoint run (self : t) (cs : list call_t) (w : World)
    : list (outcome value) * (t * World) :=
  match cs with
  | [] => ([], (self, w))
  | (args, kwargs) :: rest =>
      match call self args kwargs w with
      | (r, (self', w')) =>
          match run self' rest w' with
          | (rs, final) => (r :: rs, final)
          end
      end
  end.

End CountCalls.

(* ===================================================================== *)
(** ** [Circle] (cell 17) *)
(* ===================================================================== *)

Module Circle.

(** An instance: its attribute [_radius]. *)
Record t : Type := mk { _radius : value }.

(** [def __init__(self, radius): self._radius = radius] *)
Definition init (radius : value) : t := mk radius.

(** The property [radius]: [return self._radius]. *)
Definition radius (self : t) : value := _radius self.

(** [[
@radius.setter
def radius(self, value):
    if value >= 0:
        self._radius = value
    else:
        raise ValueError("Radius must be positive")
]]
    Values that are not numbers are not ordered against 0. *)
Definition set_radius (self : t) (v : value) : outcome t :=
  match as_int v with
  | Some z =>
      if 0 <=? z then Ret (mk v)
      else Raise (builtin_exn "ValueError" "Radius must be positive")
  | None => Raise (TypeError "'>=' not supported between these operands")
  end.

(** [@classmethod def unit_circle(cls): return cls(1)] *)
Definition unit_circle : t := init (VInt 1).

(** A sequence of assignments [c.radius = v], each one on its own: a failed
    assignment leaves the instance as it was. *)
Fixpoint assign_all (self : t) (values : list value) : t :=
  match values with
  | [] => self
  | v :: rest =>
      match set_radius self v with
      | Ret self' => assign_all self' rest
      | Raise _ => assign_all self rest
      end
  end.

End Circle.

(* ===================================================================== *)
(** ** The plug-in registry (cell 15) *)
(* ===================================================================== *)

Module Plugins.

(** A greeter: its [__name__] and the string it returns for a name. *)
Record plugin : Type := mkPlugin {
  plugin_name : string;
  plugin_call : string -> string
}.

(** [PLUGINS]: a [dict] with [str] keys, in insertion order. *)
Definition registry := list (string * plugin).

Fixpoint lookup (r : registry) (name : string) : option plugin :=
  match r with
  | [] => None
  | (n, p) :: r' => if String.eqb n name then Some p else lookup r' name
  end.

Fixpoint set (r : registry) (name : string) (p : plugin) : registry :=
  match r with
  | [] => [(name, p)]
  | (n, q) :: r' =>
      if String.eqb n name then (n, p) :: r' else (n, q) :: set r' name p
  end.

(** [[
def register(func):
    PLUGINS[func.__name__] = func
    return func
]] *)
Definition register (func : plugin) (PLUGINS : registry) : plugin * registry :=
  (func, set PLUGINS (plugin_name func) func).

(** [def say_hello(name): return f"Hello {name}"] *)
Definition say_hello : plugin :=
  mkPlugin "say_hello" (fun name => String.append "Hello " name).

(** [def be_awesome(name):
       return f"Yo {name}, together we can be awesomest!"] *)
Definition be_awesome : plugin :=
  mkPlugin "be_awesome"
    (fun name =>
       String.append "Yo "
         (String.append name ", together we can be awesomest!")).

(** [PLUGINS] once cell 15 has defined both greeters. *)
Definition notebook_registry : registry :=
  snd (register be_awesome (snd (register say_hello []))).

(** [random.choice(seq)]: [IndexError] on an empty sequence, otherwise the
    item at an index below the length; [rand] is the random source. *)
Definition random_choice {A} (rand : nat) (seq : list A) : outcome A :=
  match nth_error seq (rand mod List.length seq) with
  | Some x => Ret x
  | None => Raise (builtin_exn "IndexError"
                     "Cannot choose from an empty sequence")
  end.

(** [[
def randomly_greet(name):
    greeter, greeter_func = random.choice(list(PLUGINS.items()))
    print(f"Using {greeter!r}")
    return greeter_func(name)
]] *)
Definition randomly_greet (PLUGINS : registry) (rand : nat) (name : string)
    : M string :=
  item <- lift_outcome (random_choice rand PLUGINS) ;;
  print (String.append "Using '" (String.append (fst item) "'")) ;;
  ret (plugin_call (snd item) name).

End Plugins.

(* ===================================================================== *)
(** ** [say_whee] (cells 27, 31 and 40) *)
(* ===================================================================== *)

(** [def say_whee(): print("Whee!")] *)
Definition say_whee : func_t :=
  fun args kwargs =>
    match args, kwargs with
    | [], [] => print "Whee!" ;; ret VNone
    | _, _ => raise (TypeError "say_whee() takes 0 positional arguments")
    end.

(** The function object of [say_whee] before it is decorated: defined in
    a cell, no docstring, an empty [__dict__]. *)
Definition say_whee_function : CountCalls.pyfunc :=
  CountCalls.mkFunc "__main__" "say_whee" VNone [] say_whee.
(* ===================================================================== *)
(** ** Facts about [==], hashing and [dict] *)
(* ===================================================================== *)

Lemma py_eqb_tuple l m : py_eqb (VTuple l) (VTuple m) = seq_eqb l m.
Proof. reflexivity. Qed.

Lemma py_eqb_list l m : py_eqb (VList l) (VList m) = seq_eqb l m.
Proof. reflexivity. Qed.

Lemma seq_eqb_canon l :
  Forall (fun x => forall y, py_eqb x y = true <-> canon x = canon y) l ->
  forall m, seq_eqb l m = true <-> map canon l = map canon m.
Proof.
  induction 1 as [|x l Hx _ IH]; intros [|y m]; simpl; try (split; congruence).
  rewrite andb_true_iff, Hx, IH. split.
  - intros [-> ->]. reflexivity.
  - intros E. injection E. auto.
Qed.

Lemma py_eqb_canon x : forall y, py_eqb x y = true <-> canon x = canon y.
Proof.
  induction x as [|a|a|s|l IH|l IH] using value_ind'; intros [|b|b|t|m|m];
    try (simpl; split; congruence).
  - simpl. rewrite Z.eqb_eq. split; congruence.
  - simpl. rewrite Z.eqb_eq. split; congruence.
  - simpl. rewrite Z.eqb_eq. split; congruence.
  - simpl. rewrite Z.eqb_eq. split; congruence.
  - simpl. rewrite String.eqb_eq. split; congruence.
  - rewrite py_eqb_tuple, (seq_eqb_canon l IH). simpl. split; congruence.
  - rewrite py_eqb_list, (seq_eqb_canon l IH). simpl. split; congruence.
Qed.

Lemma py_eqb_refl x : py_eqb x x = true.
Proof. apply py_eqb_canon. reflexivity. Qed.

Lemma py_eqb_sym x y : py_eqb x y = py_eqb y x.
Proof.
  destruct (py_eqb x y) eqn:E, (py_eqb y x) eqn:F; try reflexivity.
  - apply py_eqb_canon in E. symmetry in E. apply py_eqb_canon in E. congruence.
  - apply py_eqb_canon in F. symmetry in F. apply py_eqb_canon in F. congruence.
Qed.

Lemma py_eqb_trans x y z :
  py_eqb x y = true -> py_eqb y z = true -> py_eqb x z = true.
Proof. rewrite !py_eqb_canon. congruence. Qed.

(** Equal keys are interchangeable on the right of a comparison. *)
Lemma py_eqb_congr_r x y z : py_eqb y z = true -> py_eqb x y = py_eqb x z.
Proof.
  intros E. destruct (py_eqb x y) eqn:A, (py_eqb x z) eqn:B; try reflexivity.
  - rewrite (py_eqb_trans _ _ _ A E) in B. discriminate.
  - rewrite py_eqb_sym in E. rewrite (py_eqb_trans _ _ _ B E) in A. discriminate.
Qed.

Lemma seq_eqb_length l : forall m, seq_eqb l m = true -> List.length l = List.length m.
Proof.
  induction l as [|a l IH]; intros [|b m]; simpl; try congruence.
  rewrite andb_true_iff. intros [_ H]. f_equal. auto.
Qed.

Lemma seq_eqb_app l1 : forall l2 m1 m2,
  List.length l1 = List.length l2 ->
  seq_eqb (l1 ++ m1) (l2 ++ m2) = seq_eqb l1 l2 && seq_eqb m1 m2.
Proof.
  induction l1 as [|a l1 IH]; intros [|b l2] m1 m2; simpl; try discriminate.
  - reflexivity.
  - intros L. injection L as L. rewrite (IH _ _ _ L). apply andb_assoc.
Qed.

Lemma dict_contains_get d k :
  dict_contains d k = match dict_get d k with Some _ => true | None => false end.
Proof.
  induction d as [|[k' v] d IH]; simpl; [reflexivity|].
  destruct (py_eqb k' k); simpl; auto.
Qed.

Lemma dict_get_set_same d k v : dict_get (dict_set d k v) k = Some v.
Proof.
  induction d as [|[k' v'] d IH]; simpl.
  - rewrite py_eqb_refl. reflexivity.
  - destruct (py_eqb k' k) eqn:E; simpl; rewrite E; auto.
Qed.

Lemma dict_get_set_other d k v k2 :
  py_eqb k k2 = false -> dict_get (dict_set d k v) k2 = dict_get d k2.
Proof.
  intros N. induction d as [|[k' v'] d IH]; simpl.
  - rewrite N. reflexivity.
  - destruct (py_eqb k' k) eqn:E; simpl.
    + destruct (py_eqb k' k2) eqn:F; [|reflexivity].
      rewrite py_eqb_sym in E. rewrite (py_eqb_trans _ _ _ E F) in N.
      discriminate.
    + destruct (py_eqb k' k2); auto.
Qed.

Lemma make_key_eqb args1 kw1 args2 kw2 :
  py_eqb (make_key args1 kw1) (make_key args2 kw2)
  = seq_eqb (args1 ++ map kw_item kw1) (args2 ++ map kw_item kw2).
Proof. reflexivity. Qed.

Lemma hashable_make_key args kwargs :
  hashable (make_key args kwargs)
  = forallb hashable args && forallb (fun kv => hashable (snd kv)) kwargs.
Proof.
  unfold make_key. simpl. rewrite forallb_app. f_equal.
  induction kwargs as [|[n v] kw IH]; simpl; [reflexivity|].
  rewrite IH, andb_true_r. reflexivity.
Qed.

(* ===================================================================== *)
(** ** The three ways through [wrapper_cache] *)
(* ===================================================================== *)

(** The key cannot be hashed: [TypeError] before anything else happens. *)
Lemma wrapper_cache_unhashable func args kwargs w :
  hashable (make_key args kwargs) = false ->
  wrapper_cache func args kwargs w
  = (Raise (TypeError "unhashable type: 'list'"), w).
Proof.
  intros H. unfold wrapper_cache, bind, lift_outcome, py_hash.
  rewrite H. reflexivity.
Qed.

(** The key is in the dictionary: the stored value, the state as it was. *)
Lemma wrapper_cache_hit func args kwargs w v :
  hashable (make_key args kwargs) = true ->
  dict_get (cache w) (make_key args kwargs) = Some v ->
  wrapper_cache func args kwargs w = (Ret v, w).
Proof.
  intros H G.
  unfold wrapper_cache, bind, lift_outcome, py_hash, get_cache, ret.
  rewrite H, dict_contains_get, G. simpl. rewrite G. reflexivity.
Qed.

(** The key is not in the dictionary: [func] runs, and its result is stored
    in the dictionary it left behind unless it raised. *)
Lemma wrapper_cache_miss func args kwargs w :
  hashable (make_key args kwargs) = true ->
  dict_contains (cache w) (make_key args kwargs) = false ->
  wrapper_cache func args kwargs w
  = match func args kwargs w with
    | (Ret r, w1) => (Ret r, store w1 (make_key args kwargs) r)
    | (Raise e, w1) => (Raise e, w1)
    end.
Proof.
  intros H C.
  unfold wrapper_cache, bind, lift_outcome, py_hash, get_cache, set_cache, ret.
  rewrite H, C. simpl.
  destruct (func args kwargs w) as [[r|e] w1]; [|reflexivity].
  simpl. rewrite dict_get_set_same. reflexivity.
Qed.

(** A call that returned left its key in the dictionary with that value. *)
Lemma wrapper_cache_ret_stored func args kwargs w v w1 :
  wrapper_cache func args kwargs w = (Ret v, w1) ->
  hashable (make_key args kwargs) = true /\
  dict_get (cache w1) (make_key args kwargs) = Some v.
Proof.
  intros R. destruct (hashable (make_key args kwargs)) eqn:H.
  2:{ rewrite wrapper_cache_unhashable in R by assumption. discriminate. }
  split; [reflexivity|].
  destruct (dict_get (cache w) (make_key args kwargs)) as [v0|] eqn:G.
  - rewrite (wrapper_cache_hit func _ _ _ _ H G) in R. congruence.
  - rewrite wrapper_cache_miss in R
      by (try rewrite dict_contains_get, G; auto).
    destruct (func args kwargs w) as [[r|e] w2]; [|discriminate].
    injection R as -> <-. simpl. apply dict_get_set_same.
Qed.

Lemma count_calls_run name func args kwargs w :
  count_calls name func args kwargs w = func args kwargs (counted name w).
Proof. reflexivity. Qed.

(* ===================================================================== *)
(** ** Hits, failures and unhashable arguments *)
(* ===================================================================== *)

(** C2.  When a call of the memoized wrapper returns, a second call with the
    same arguments returns the same result and leaves the state as it was,
    whatever function is wrapped: the stored result is returned and the
    function is not invoked again.  When the wrapped function is a counted
    function whose body does not itself change the counter, the two calls
    together count at most one invocation. *)
Theorem memo_second_call_is_hit func args kwargs w v w1 :
  wrapper_cache func args kwargs w = (Ret v, w1) ->
  (forall func2, wrapper_cache func2 args kwargs w1 = (Ret v, w1)) /\
  (forall name g,
     func = count_calls name g ->
     (forall a k s, num_calls (snd (g a k s)) = num_calls s) ->
     (num_calls (snd (wrapper_cache func args kwargs w1))
      <= num_calls w + 1)%nat).
Proof.
  intros R.
  destruct (wrapper_cache_ret_stored _ _ _ _ _ _ R) as [H G].
  assert (Hit : forall func2, wrapper_cache func2 args kwargs w1 = (Ret v, w1))
    by (intros; apply wrapper_cache_hit; assumption).
  split; [exact Hit|].
  intros name g -> Hg. rewrite Hit. simpl.
  destruct (dict_get (cache w) (make_key args kwargs)) as [v0|] eqn:G0.
  - rewrite (wrapper_cache_hit _ _ _ _ _ H G0) in R.
    injection R as _ <-. lia.
  - rewrite wrapper_cache_miss in R
      by (try rewrite dict_contains_get, G0; auto).
    rewrite count_calls_run in R. specialize (Hg args kwargs (counted name w)).
    destruct (g args kwargs (counted name w)) as [[r|e] w2]; [|discriminate].
    injection R as _ <-. simpl in *. lia.
Qed.

(** C4.  On a miss, an exception of the wrapped function reaches the caller
    as it is and the wrapper stores nothing: the state is the one the
    function left.  If the function left the dictionary alone, the
    dictionary is unchanged, the key is still absent, and a later call with
    the same arguments runs the wrapped function again. *)
Theorem failure_not_memoized func args kwargs w e w1 :
  hashable (make_key args kwargs) = true ->
  dict_contains (cache w) (make_key args kwargs) = false ->
  func args kwargs w = (Raise e, w1) ->
  wrapper_cache func args kwargs w = (Raise e, w1) /\
  (cache w1 = cache w ->
   dict_contains (cache w1) (make_key args kwargs) = false /\
   forall func2,
     wrapper_cache func2 args kwargs w1
     = match func2 args kwargs w1 with
       | (Ret r, w2) => (Ret r, store w2 (make_key args kwargs) r)
       | (Raise e2, w2) => (Raise e2, w2)
       end).
Proof.
  intros H C F. split.
  - rewrite wrapper_cache_miss, F by assumption. reflexivity.
  - intros E. rewrite E. split; [assumption|].
    intros func2. apply wrapper_cache_miss; [assumption|].
    rewrite E. assumption.
Qed.

(** C5.  When some positional or keyword argument value is unhashable, the
    call fails with [TypeError: unhashable type], whatever function is
    wrapped, and the state is untouched: the function is not invoked. *)
Theorem unhashable_fails_fast func args kwargs w :
  existsb (fun v => negb (hashable v)) (args ++ map snd kwargs) = true ->
  wrapper_cache func args kwargs w
  = (Raise (TypeError "unhashable type: 'list'"), w).
Proof.
  intros E. apply wrapper_cache_unhashable.
  rewrite hashable_make_key.
  rewrite existsb_app, orb_true_iff in E.
  destruct E as [E|E].
  - replace (forallb hashable args) with false; [reflexivity|].
    symmetry. induction args as [|a args IH]; simpl in *; [discriminate|].
    destruct (hashable a); simpl in *; auto.
  - replace (forallb (fun kv => hashable (snd kv)) kwargs) with false;
      [apply andb_false_r|].
    symmetry. induction kwargs as [|[n a] kw IH]; simpl in *; [discriminate|].
    destruct (hashable a); simpl in *; auto.
Qed.

(** C9.  A call whose last positional argument is the pair [(name, v)] and
    the call that passes [name=v] as a keyword instead are different calls
    with the same cache key, so once the first returned, the second returns
    the first one's result without invoking any function. *)
Theorem positional_keyword_collision args name v :
  (args ++ [VTuple [VStr name; v]], @nil (string * value))
    <> (args, [(name, v)]) /\
  make_key (args ++ [VTuple [VStr name; v]]) [] = make_key args [(name, v)] /\
  forall func w r w1,
    wrapper_cache func (args ++ [VTuple [VStr name; v]]) [] w = (Ret r, w1) ->
    forall func2, wrapper_cache func2 args [(name, v)] w1 = (Ret r, w1).
Proof.
  assert (K : make_key (args ++ [VTuple [VStr name; v]]) []
              = make_key args [(name, v)]).
  { unfold make_key. simpl. rewrite app_nil_r. reflexivity. }
  split; [|split].
  - intros E. discriminate.
  - exact K.
  - intros func w r w1 R func2.
    destruct (wrapper_cache_ret_stored _ _ _ _ _ _ R) as [H G].
    rewrite K in H, G. apply wrapper_cache_hit; assumption.
Qed.

(* ===================================================================== *)
(** ** Transparency of the cache *)
(* ===================================================================== *)

Lemma in_dict_set d k v k0 v0 :
  In (k0, v0) (dict_set d k v) ->
  In (k0, v0) d \/ (py_eqb k0 k = true /\ v0 = v).
Proof.
  induction d as [|[k' v'] d IH]; simpl.
  - intros [E|[]]. injection E as <- <-. right. split; [apply py_eqb_refl|reflexivity].
  - destruct (py_eqb k' k) eqn:E; simpl.
    + intros [F|F]; [|auto]. injection F as <- <-. auto.
    + intros [F|F]; [auto|]. destruct (IH F); auto.
Qed.

Lemma dict_get_in d k v :
  dict_get d k = Some v -> exists k', In (k', v) d /\ py_eqb k' k = true.
Proof.
  induction d as [|[k' v'] d IH]; simpl; [discriminate|].
  destruct (py_eqb k' k) eqn:E.
  - intros [= <-]. eauto.
  - intros G. destruct (IH G) as (k1 & I & P). eauto.
Qed.

Lemma cache_from_mono f h1 h2 d :
  (forall c, In c h1 -> In c h2) -> cache_from f h1 d -> cache_from f h2 d.
Proof.
  intros S C k v I. destruct (C k v I) as (c & Ic & P & F). eauto.
Qed.

(** One call of the wrapper around an effect-free function keeps the
    dictionary made of results of that function. *)
Lemma cache_from_step f hist args kwargs w :
  cache_from f hist (cache w) ->
  cache_from f (hist ++ [(args, kwargs)])
    (cache (snd (wrapper_cache (pure_func f) args kwargs w))).
Proof.
  intros C.
  assert (C' : cache_from f (hist ++ [(args, kwargs)]) (cache w)).
  { eapply cache_from_mono; [|exact C]. intros c I. apply in_or_app. auto. }
  destruct (hashable (make_key args kwargs)) eqn:H.
  2:{ rewrite wrapper_cache_unhashable by assumption. exact C'. }
  destruct (dict_get (cache w) (make_key args kwargs)) as [v0|] eqn:G.
  - rewrite (wrapper_cache_hit _ _ _ _ _ H G). exact C'.
  - rewrite wrapper_cache_miss by (try rewrite dict_contains_get, G; auto).
    unfold pure_func, lift_outcome.
    destruct (f args kwargs) as [r|e] eqn:F; simpl; [|exact C'].
    intros k v I. apply in_dict_set in I. destruct I as [I|[P ->]].
    + apply C'. exact I.
    + exists (args, kwargs). split; [apply in_or_app; simpl; auto|].
      split; [|exact F]. rewrite py_eqb_sym. exact P.
Qed.

Lemma cache_from_run f calls : forall hist w,
  cache_from f hist (cache w) ->
  cache_from f (hist ++ calls)
    (cache (run_calls (wrapper_cache (pure_func f)) calls w)).
Proof.
  induction calls as [|[args kwargs] calls IH]; intros hist w C; simpl.
  - rewrite app_nil_r. exact C.
  - pose proof (IH _ _ (cache_from_step f hist args kwargs w C)) as R.
    rewrite <- app_assoc in R. exact R.
Qed.

(** C1, as amended.  After any history of calls of the wrapper around an
    effect-free function [f], starting from the empty cache, a call with
    hashable arguments returns exactly [f] of these arguments, provided
    every earlier call whose key equals this call's key has the same outcome
    under [f]. *)
Theorem cache_transparent f history args kwargs :
  hashable (make_key args kwargs) = true ->
  Forall (fun c => py_eqb (call_key c) (make_key args kwargs) = true ->
                   f (fst c) (snd c) = f args kwargs) history ->
  fst (wrapper_cache (pure_func f) args kwargs
         (run_calls (wrapper_cache (pure_func f)) history initial_world))
  = f args kwargs.
Proof.
  intros H A.
  set (w := run_calls (wrapper_cache (pure_func f)) history initial_world).
  assert (C : cache_from f history (cache w)).
  { apply (cache_from_run f history [] initial_world). intros k v []. }
  destruct (dict_get (cache w) (make_key args kwargs)) as [v0|] eqn:G.
  - rewrite (wrapper_cache_hit _ _ _ _ _ H G). simpl.
    destruct (dict_get_in _ _ _ G) as (k' & I & P).
    destruct (C k' v0 I) as (c & Ic & Pc & F).
    rewrite Forall_forall in A.
    rewrite <- (A c Ic (py_eqb_trans _ _ _ Pc P)). symmetry. exact F.
  - rewrite wrapper_cache_miss by (try rewrite dict_contains_get, G; auto).
    unfold pure_func, lift_outcome.
    destruct (f args kwargs) as [r|e]; reflexivity.
Qed.

(** C1 as stated fails: [count_positional] is deterministic, but after the
    call [(1, ('x', 2))] the call [(1, x=2)] with hashable arguments returns
    2, the number cached for the first call, where the function returns 1. *)
Lemma cache_transparency_counterexample :
  let first : call_t := ([VInt 1; VTuple [VStr "x"; VInt 2]], []) in
  let args := [VInt 1] in
  let kwargs := [("x", VInt 2)] in
  let w := run_calls (wrapper_cache (pure_func count_positional)) [first]
             initial_world in
  hashable (make_key args kwargs) = true /\
  fst (wrapper_cache (pure_func count_positional) args kwargs w)
    = Ret (VInt 2) /\
  count_positional args kwargs = Ret (VInt 1) /\
  fst (wrapper_cache (pure_func count_positional) args kwargs w)
    <> count_positional args kwargs.
Proof.
  vm_compute. repeat split; try reflexivity. discriminate.
Qed.

(* ===================================================================== *)
(** ** Which calls share an entry *)
(* ===================================================================== *)

Lemma seq_eqb_refl l : seq_eqb l l = true.
Proof. induction l; simpl; [|rewrite py_eqb_refl]; auto. Qed.

Lemma make_key_same_kwargs a1 a2 kw :
  py_eqb (make_key a1 kw) (make_key a2 kw) = seq_eqb a1 a2.
Proof.
  rewrite make_key_eqb.
  destruct (Nat.eq_dec (List.length a1) (List.length a2)) as [L|L].
  - rewrite seq_eqb_app by assumption.
    rewrite seq_eqb_refl. apply andb_true_r.
  - destruct (seq_eqb a1 a2) eqn:E.
    { apply seq_eqb_length in E. contradiction. }
    destruct (seq_eqb (a1 ++ _) (a2 ++ _)) eqn:F; [|reflexivity].
    apply seq_eqb_length in F. rewrite !length_app in F. lia.
Qed.

(** The dictionary after one call of the wrapper around an effect-free
    function: as before, or with this call's entry set. *)
Lemma wrapper_cache_pure_cache f args kwargs w :
  cache (snd (wrapper_cache (pure_func f) args kwargs w)) = cache w \/
  exists r, cache (snd (wrapper_cache (pure_func f) args kwargs w))
            = dict_set (cache w) (make_key args kwargs) r.
Proof.
  destruct (hashable (make_key args kwargs)) eqn:H.
  2:{ rewrite wrapper_cache_unhashable by assumption. auto. }
  destruct (dict_get (cache w) (make_key args kwargs)) as [v0|] eqn:G.
  - rewrite (wrapper_cache_hit _ _ _ _ _ H G). auto.
  - rewrite wrapper_cache_miss by (try rewrite dict_contains_get, G; auto).
    unfold pure_func, lift_outcome.
    destruct (f args kwargs) as [r|e]; simpl; eauto.
Qed.

Lemma dict_set_absent d k v :
  dict_contains d k = false -> dict_set d k v = d ++ [(k, v)].
Proof.
  induction d as [|[k' v'] d IH]; simpl; [reflexivity|].
  destruct (py_eqb k' k); simpl; [discriminate|].
  intros C. rewrite IH by exact C. reflexivity.
Qed.

Lemma calls_differ_keys a1 kw1 a2 kw2 :
  calls_differ a1 kw1 a2 kw2 ->
  py_eqb (make_key a1 kw1) (make_key a2 kw2) = false.
Proof.
  rewrite make_key_eqb. intros [[L D]|[T|G]].
  - rewrite seq_eqb_app by exact L.
    destruct D as [D|D]; rewrite D; [reflexivity|apply andb_false_r].
  - destruct (seq_eqb (a1 ++ _) (a2 ++ _)) eqn:E; [|reflexivity].
    apply seq_eqb_length in E. rewrite !length_app, !length_map in E. lia.
  - exact G.
Qed.

(** A first call of the cached, counted, effect-free function that misses
    and returns: one invocation, the result stored under the key. *)
Lemma cached_counted_miss name f args kwargs w r :
  hashable (make_key args kwargs) = true ->
  dict_contains (cache w) (make_key args kwargs) = false ->
  f args kwargs = Ret r ->
  wrapper_cache (count_calls name (pure_func f)) args kwargs w
  = (Ret r,
     mkWorld (cache w ++ [(make_key args kwargs, r)]) (S (num_calls w))
       (stdout w ++ [call_line name (S (num_calls w))])).
Proof.
  intros H C F. rewrite wrapper_cache_miss by assumption.
  rewrite count_calls_run. unfold pure_func, lift_outcome. rewrite F.
  unfold store, counted. cbn [cache num_calls stdout].
  rewrite dict_set_absent by exact C. reflexivity.
Qed.

(** Two calls with different keys, both absent from the dictionary and
    both returning: each is computed and the dictionary gets both entries,
    in the order of the calls. *)
Lemma two_misses_two_entries name f a1 kw1 a2 kw2 r1 r2 w :
  py_eqb (make_key a1 kw1) (make_key a2 kw2) = false ->
  hashable (make_key a1 kw1) = true ->
  hashable (make_key a2 kw2) = true ->
  dict_contains (cache w) (make_key a1 kw1) = false ->
  dict_contains (cache w) (make_key a2 kw2) = false ->
  f a1 kw1 = Ret r1 -> f a2 kw2 = Ret r2 ->
  exists w1 w2,
    wrapper_cache (count_calls name (pure_func f)) a1 kw1 w = (Ret r1, w1) /\
    wrapper_cache (count_calls name (pure_func f)) a2 kw2 w1 = (Ret r2, w2) /\
    cache w1 = cache w ++ [(make_key a1 kw1, r1)] /\
    dict_contains (cache w1) (make_key a2 kw2) = false /\
    cache w2 = cache w ++ [(make_key a1 kw1, r1); (make_key a2 kw2, r2)] /\
    num_calls w2 = (num_calls w + 2)%nat.
Proof.
  intros K H1 H2 C1 C2 F1 F2.
  eexists. eexists.
  split; [apply cached_counted_miss; eassumption|].
  assert (C2' : dict_contains (cache w ++ [(make_key a1 kw1, r1)])
                  (make_key a2 kw2) = false).
  { rewrite <- (dict_set_absent _ _ r1 C1).
    rewrite dict_contains_get in *.
    rewrite dict_get_set_other by exact K. exact C2. }
  split; [apply cached_counted_miss; [exact H2|exact C2'|exact F2]|].
  cbn [cache num_calls].
  split; [reflexivity|]. split; [exact C2'|].
  split; [rewrite <- app_assoc; reflexivity|lia].
Qed.

Lemma dict_get_two_entries d k1 v1 k2 v2 :
  dict_contains d k1 = false -> dict_contains d k2 = false ->
  py_eqb k1 k2 = false ->
  dict_get (d ++ [(k1, v1); (k2, v2)]) k1 = Some v1 /\
  dict_get (d ++ [(k1, v1); (k2, v2)]) k2 = Some v2.
Proof.
  intros C1 C2 K.
  assert (C2' : dict_contains (dict_set d k1 v1) k2 = false).
  { rewrite dict_contains_get in *. rewrite dict_get_set_other by exact K.
    exact C2. }
  replace (d ++ [(k1, v1); (k2, v2)])
    with (dict_set (dict_set d k1 v1) k2 v2).
  2:{ rewrite (dict_set_absent _ _ v2 C2'), (dict_set_absent _ _ v1 C1).
      rewrite <- app_assoc. reflexivity. }
  split.
  - rewrite dict_get_set_other by (rewrite py_eqb_sym; exact K).
    apply dict_get_set_same.
  - apply dict_get_set_same.
Qed.

(** C3, as amended.  Two calls that differ in a way the key can see
    (the same number of positional arguments and a different positional
    value or keyword item, or different total numbers of arguments, or in
    general different sequences of positional values followed by keyword
    items) have different keys; setting the entry of one leaves the lookup
    of the other as it was; a call that would miss still misses, and
    returns its own result, after the other call has been made; and when
    both calls miss and return, the first one's result is stored, the
    second is computed all the same, and the dictionary ends with one
    entry for each.  Only calls whose sequences coincide, a trailing
    positional pair standing where the other call has a keyword, share an
    entry. *)
Theorem distinct_args_distinct_entries a1 kw1 a2 kw2 :
  calls_differ a1 kw1 a2 kw2 ->
  py_eqb (make_key a1 kw1) (make_key a2 kw2) = false /\
  (forall d v,
     dict_get (dict_set d (make_key a2 kw2) v) (make_key a1 kw1)
     = dict_get d (make_key a1 kw1)) /\
  (forall f w,
     hashable (make_key a1 kw1) = true ->
     dict_contains (cache w) (make_key a1 kw1) = false ->
     fst (wrapper_cache (pure_func f) a1 kw1
            (snd (wrapper_cache (pure_func f) a2 kw2 w)))
     = f a1 kw1) /\
  (forall name f w r1 r2,
     hashable (make_key a1 kw1) = true ->
     hashable (make_key a2 kw2) = true ->
     dict_contains (cache w) (make_key a1 kw1) = false ->
     dict_contains (cache w) (make_key a2 kw2) = false ->
     f a1 kw1 = Ret r1 -> f a2 kw2 = Ret r2 ->
     let memo := wrapper_cache (count_calls name (pure_func f)) in
     let w2 := snd (memo a2 kw2 w) in
     let w3 := snd (memo a1 kw1 w2) in
     fst (memo a2 kw2 w) = Ret r2 /\
     dict_get (cache w2) (make_key a2 kw2) = Some r2 /\
     dict_contains (cache w2) (make_key a1 kw1) = false /\
     fst (memo a1 kw1 w2) = Ret r1 /\
     num_calls w3 = (num_calls w + 2)%nat /\
     cache w3 = cache w ++ [(make_key a2 kw2, r2); (make_key a1 kw1, r1)]).
Proof.
  intros D.
  assert (N : py_eqb (make_key a1 kw1) (make_key a2 kw2) = false)
    by (apply calls_differ_keys; exact D).
  assert (K : py_eqb (make_key a2 kw2) (make_key a1 kw1) = false)
    by (rewrite py_eqb_sym; exact N).
  split; [exact N|].
  split; [intros; apply dict_get_set_other; exact K|].
  split.
  - intros f w H C.
    rewrite wrapper_cache_miss; [|assumption|].
    + unfold pure_func, lift_outcome. destruct (f a1 kw1); reflexivity.
    + rewrite dict_contains_get in *.
      destruct (wrapper_cache_pure_cache f a2 kw2 w) as [->|[r ->]];
        [assumption|].
      rewrite dict_get_set_other by exact K. assumption.
  - intros name f w r1 r2 H1 H2 C1 C2 F1 F2 memo w2 w3.
    destruct (two_misses_two_entries name f a2 kw2 a1 kw1 r2 r1 w
                K H2 H1 C2 C1 F2 F1)
      as (x1 & x2 & S1 & S2 & E1 & A1 & E2 & Nc).
    subst memo w2 w3. rewrite S1. cbn [fst snd]. rewrite S2. cbn [fst snd].
    split; [reflexivity|].
    split; [rewrite E1, <- (dict_set_absent _ _ r2 C2);
            apply dict_get_set_same|].
    split; [exact A1|]. split; [reflexivity|]. split; [exact Nc|exact E2].
Qed.

(** C3 as stated fails: the calls [(1, ('x', 2))] and [(1, x=2)] have
    different argument tuples and one key, so after the second was cached
    the first finds that entry and returns its result, 1, although
    [count_positional] gives 2 for it; the dictionary holds one entry. *)
Lemma distinctness_counterexample :
  let a1 := [VInt 1; VTuple [VStr "x"; VInt 2]] in
  let a2 := [VInt 1] in
  let kw2 := [("x", VInt 2)] in
  let w := run_calls (wrapper_cache (pure_func count_positional)) [(a2, kw2)]
             initial_world in
  seq_eqb a1 a2 = false /\
  py_eqb (make_key a1 []) (make_key a2 kw2) = true /\
  wrapper_cache (pure_func count_positional) a1 [] w = (Ret (VInt 1), w) /\
  count_positional a1 [] = Ret (VInt 2) /\
  List.length (cache w) = 1%nat.
Proof. vm_compute. repeat split; reflexivity. Qed.

Lemma kw_items_names kw1 : forall kw2,
  seq_eqb (map kw_item kw1) (map kw_item kw2) = true ->
  map fst kw1 = map fst kw2.
Proof.
  induction kw1 as [|[n1 v1] kw1 IH]; intros [|[n2 v2] kw2]; simpl;
    try congruence.
  rewrite andb_true_iff. intros [E S].
  destruct (String.eqb_spec n1 n2) as [->|]; [|discriminate].
  f_equal. auto.
Qed.

(** Keyword arguments with the same names in the same order, each name
    once, that are a rearrangement of each other are the same list. *)
Lemma perm_same_names (kw1 : kwargs_t) : forall kw2 : kwargs_t,
  Permutation kw1 kw2 -> NoDup (map fst kw1) ->
  map fst kw1 = map fst kw2 -> kw1 = kw2.
Proof.
  induction kw1 as [|[n v1] kw1 IH]; intros [|[n2 v2] kw2] P D E;
    simpl in *; try discriminate; [reflexivity|].
  injection E as <- E. inversion D as [|? ? Nin D']; subst.
  assert (I : In (n, v1) ((n, v2) :: kw2))
    by (eapply Permutation_in; [exact P|left; reflexivity]).
  destruct I as [I|I].
  - injection I as ->. f_equal. apply IH; auto.
    eapply Permutation_cons_inv. exact P.
  - exfalso. apply Nin. rewrite E. apply (in_map fst) in I. exact I.
Qed.

Lemma forallb_permutation {A} (p : A -> bool) l l' :
  Permutation l l' -> forallb p l = forallb p l'.
Proof.
  induction 1 as [|x l l' _ IH|x y l|l l' l'' _ IH1 _ IH2]; simpl.
  - reflexivity.
  - rewrite IH. reflexivity.
  - destruct (p x), (p y); reflexivity.
  - congruence.
Qed.

(** The same keyword arguments, each name once, in a different order
    after the same positional arguments: the keys differ. *)
Lemma reordered_keywords_keys args kw1 kw2 :
  Permutation kw1 kw2 -> NoDup (map fst kw1) -> kw1 <> kw2 ->
  py_eqb (make_key args kw1) (make_key args kw2) = false.
Proof.
  intros P D N.
  destruct (py_eqb _ _) eqn:E; [|reflexivity]. exfalso. apply N.
  rewrite make_key_eqb, seq_eqb_app, seq_eqb_refl in E by reflexivity.
  apply perm_same_names; auto. apply kw_items_names. exact E.
Qed.

(** C7.  The cached, counted, effect-free function is called with some
    keyword arguments (each name once, hashable values) and then with the
    same keyword arguments in a different order, neither call being in the
    cache before and both returning.  The two keys differ.  The key is a
    function of the call: the first call again, in the same order, is a hit
    that returns the stored result and changes nothing.  The reordered call
    is a miss: it is computed (two invocations in all) and the dictionary
    ends with both entries, the first call's and the reordered call's, one
    after the other. *)
Theorem keyword_order_sensitive name f args kw1 kw2 r1 r2 w :
  Permutation kw1 kw2 ->
  NoDup (map fst kw1) ->
  kw1 <> kw2 ->
  hashable (make_key args kw1) = true ->
  dict_contains (cache w) (make_key args kw1) = false ->
  dict_contains (cache w) (make_key args kw2) = false ->
  f args kw1 = Ret r1 ->
  f args kw2 = Ret r2 ->
  let memo := wrapper_cache (count_calls name (pure_func f)) in
  let w1 := snd (memo args kw1 w) in
  let w2 := snd (memo args kw2 w1) in
  py_eqb (make_key args kw1) (make_key args kw2) = false /\
  fst (memo args kw1 w) = Ret r1 /\
  memo args kw1 w1 = (Ret r1, w1) /\
  dict_contains (cache w1) (make_key args kw2) = false /\
  fst (memo args kw2 w1) = Ret r2 /\
  num_calls w2 = (num_calls w + 2)%nat /\
  cache w2 = cache w ++ [(make_key args kw1, r1); (make_key args kw2, r2)] /\
  dict_get (cache w2) (make_key args kw1) = Some r1 /\
  dict_get (cache w2) (make_key args kw2) = Some r2.
Proof.
  intros P D N H1 C1 C2 F1 F2 memo w1 w2.
  assert (K : py_eqb (make_key args kw1) (make_key args kw2) = false)
    by (apply reordered_keywords_keys; assumption).
  assert (H2 : hashable (make_key args kw2) = true).
  { rewrite hashable_make_key in *.
    rewrite <- (forallb_permutation _ _ _ P). exact H1. }
  destruct (two_misses_two_entries name f args kw1 args kw2 r1 r2 w
              K H1 H2 C1 C2 F1 F2)
    as (x1 & x2 & S1 & S2 & E1 & A1 & E2 & Nc).
  subst memo w1 w2. rewrite S1. cbn [fst snd]. rewrite S2. cbn [fst snd].
  destruct (dict_get_two_entries (cache w) _ r1 _ r2 C1 C2 K) as [G1 G2].
  split; [exact K|]. split; [reflexivity|].
  split.
  { apply wrapper_cache_hit; [exact H1|].
    rewrite E1, <- (dict_set_absent _ _ r1 C1). apply dict_get_set_same. }
  split; [exact A1|]. split; [reflexivity|]. split; [exact Nc|].
  split; [exact E2|]. rewrite E2. split; [exact G1|exact G2].
Qed.

(* ===================================================================== *)
(** ** The Fibonacci cells *)
(* ===================================================================== *)

(** C6.  With room for at least eleven nested calls, [fibonacci(10)] under
    [@cache @count_calls] returns 55 after 11 invocations of the counted
    function, one for each [n] from 0 to 10: the dictionary ends with one
    entry per [n], in the order the results were computed, and eleven lines
    were printed.  Under [@count_calls] alone it returns 55 after 177
    invocations. *)
Theorem fibonacci_scenario (extra : nat) :
  fibonacci (11 + extra) [VInt 10] [] initial_world
  = (Ret (VInt 55),
     mkWorld
       (map (fun p => (int_key (fst p), VInt (snd p)))
          [(1,1); (0,0); (2,1); (3,2); (4,3); (5,5); (6,8); (7,13);
           (8,21); (9,34); (10,55)])
       11
       (map (call_line "fibonacci") (seq 1 11))) /\
  fibonacci_counted (11 + extra) [VInt 10] [] initial_world
  = (Ret (VInt 55),
     mkWorld [] 177 (map (call_line "fibonacci") (seq 1 177))).
Proof. split; vm_compute; reflexivity. Qed.

(* ===================================================================== *)
(** ** The bounded variant *)
(* ===================================================================== *)

Lemma lru_wrapper_hit maxsize func args kwargs w v :
  hashable (make_key args kwargs) = true ->
  dict_get (cache w) (make_key args kwargs) = Some v ->
  lru_wrapper maxsize func args kwargs w
  = (Ret v, mkWorld (lru_touch (cache w) (make_key args kwargs) v)
              (num_calls w) (stdout w)).
Proof.
  intros H G.
  unfold lru_wrapper, bind, lift_outcome, py_hash, get_cache, set_cache, ret.
  rewrite H. simpl. rewrite G. reflexivity.
Qed.

Lemma lru_wrapper_miss maxsize func args kwargs w :
  hashable (make_key args kwargs) = true ->
  dict_get (cache w) (make_key args kwargs) = None ->
  lru_wrapper maxsize func args kwargs w
  = match func args kwargs w with
    | (Ret r, w1) =>
        (Ret r,
         mkWorld (lru_evict maxsize
                    (lru_touch (cache w1) (make_key args kwargs) r))
           (num_calls w1) (stdout w1))
    | (Raise e, w1) => (Raise e, w1)
    end.
Proof.
  intros H G.
  unfold lru_wrapper, bind, lift_outcome, py_hash, get_cache, set_cache, ret.
  rewrite H. simpl. rewrite G.
  destruct (func args kwargs w) as [[r|e] w1]; reflexivity.
Qed.

(** A counted effect-free function on a miss of the bounded cache. *)
Lemma lru_counted_miss name f args kwargs w r d :
  hashable (make_key args kwargs) = true ->
  f args kwargs = Ret r ->
  cache w = d ->
  dict_get d (make_key args kwargs) = None ->
  lru_wrapper (Some 2%nat) (count_calls name (pure_func f)) args kwargs w
  = (Ret r,
     mkWorld (lru_evict (Some 2%nat) (lru_touch d (make_key args kwargs) r))
       (S (num_calls w)) (stdout w ++ [call_line name (S (num_calls w))])).
Proof.
  intros H F <- G. rewrite lru_wrapper_miss by assumption.
  rewrite count_calls_run. unfold pure_func, lift_outcome. rewrite F.
  reflexivity.
Qed.

Lemma lru_counted_hit name f args kwargs w v d :
  hashable (make_key args kwargs) = true ->
  cache w = d ->
  dict_get d (make_key args kwargs) = Some v ->
  lru_wrapper (Some 2%nat) (count_calls name (pure_func f)) args kwargs w
  = (Ret v,
     mkWorld (lru_touch d (make_key args kwargs) v) (num_calls w) (stdout w)).
Proof. intros H <- G. apply lru_wrapper_hit; assumption. Qed.

Ltac lru_simpl :=
  unfold lru_touch, lru_evict;
  cbn [dict_get dict_remove dict_contains app tl List.length Nat.ltb Nat.leb].

(** C8.  Bounded cache with [maxsize = 2] around a counted effect-free
    function, three calls A, B, C with hashable, pairwise different keys,
    starting from an empty cache.  After A and B both are cached; the
    insertion of C evicts A, leaving B and C.  From there a call A is
    computed again (the counter goes up by one), while B and C are hits in
    either order (the counter stays). *)
Theorem lru_eviction_maxsize_2 name f aa ak ba bk ca ck va vb vc w :
  let memo := lru_wrapper (Some 2%nat) (count_calls name (pure_func f)) in
  let ka := make_key aa ak in
  let kb := make_key ba bk in
  let kc := make_key ca ck in
  cache w = [] ->
  hashable ka = true -> hashable kb = true -> hashable kc = true ->
  py_eqb ka kb = false -> py_eqb ka kc = false -> py_eqb kb kc = false ->
  f aa ak = Ret va -> f ba bk = Ret vb -> f ca ck = Ret vc ->
  let w3 := run_calls memo [(aa, ak); (ba, bk); (ca, ck)] w in
  cache (run_calls memo [(aa, ak); (ba, bk)] w) = [(ka, va); (kb, vb)] /\
  cache w3 = [(kb, vb); (kc, vc)] /\
  dict_contains (cache w3) ka = false /\
  num_calls w3 = (num_calls w + 3)%nat /\
  (fst (memo aa ak w3) = Ret va /\
   num_calls (snd (memo aa ak w3)) = (num_calls w3 + 1)%nat) /\
  (fst (memo ba bk w3) = Ret vb /\
   num_calls (snd (memo ba bk w3)) = num_calls w3) /\
  (fst (memo ca ck w3) = Ret vc /\
   num_calls (snd (memo ca ck w3)) = num_calls w3) /\
  num_calls (run_calls memo [(ba, bk); (ca, ck)] w3) = num_calls w3 /\
  num_calls (run_calls memo [(ca, ck); (ba, bk)] w3) = num_calls w3.
Proof.
  intros memo ka kb kc E Ha Hb Hc Nab Nac Nbc Fa Fb Fc w3'.
  subst w3'.
  assert (Nba : py_eqb kb ka = false) by (rewrite py_eqb_sym; exact Nab).
  assert (Nca : py_eqb kc ka = false) by (rewrite py_eqb_sym; exact Nac).
  assert (Ncb : py_eqb kc kb = false) by (rewrite py_eqb_sym; exact Nbc).
  assert (Raa := py_eqb_refl ka).
  assert (Rbb := py_eqb_refl kb).
  assert (Rcc := py_eqb_refl kc).
  (* the three calls, one after the other *)
  assert (S1 : memo aa ak w
               = (Ret va, mkWorld [(ka, va)] (S (num_calls w))
                            (stdout w ++ [call_line name (S (num_calls w))]))).
  { unfold memo. rewrite (lru_counted_miss name f aa ak w va [])
      by (assumption || reflexivity). reflexivity. }
  set (w1 := mkWorld [(ka, va)] (S (num_calls w)) _) in S1.
  assert (S2 : memo ba bk w1
               = (Ret vb, mkWorld [(ka, va); (kb, vb)] (S (S (num_calls w)))
                            (stdout w1 ++ [call_line name (S (num_calls w1))]))).
  { unfold memo.
    rewrite (lru_counted_miss name f ba bk w1 vb [(ka, va)]);
      try (assumption || reflexivity).
    - lru_simpl; fold kb. rewrite Nab. reflexivity.
    - lru_simpl; fold kb. rewrite Nab. reflexivity. }
  set (w2 := mkWorld [(ka, va); (kb, vb)] _ _) in S2.
  assert (S3 : memo ca ck w2
               = (Ret vc, mkWorld [(kb, vb); (kc, vc)] (S (S (S (num_calls w))))
                            (stdout w2 ++ [call_line name (S (num_calls w2))]))).
  { unfold memo.
    rewrite (lru_counted_miss name f ca ck w2 vc [(ka, va); (kb, vb)]);
      try (assumption || reflexivity).
    - lru_simpl; fold kc. rewrite Nac, Nbc. reflexivity.
    - lru_simpl; fold kc. rewrite Nac, Nbc. reflexivity. }
  set (w3 := mkWorld [(kb, vb); (kc, vc)] _ _) in S3.
  assert (R2 : run_calls memo [(aa, ak); (ba, bk)] w = w2).
  { simpl. rewrite S1. simpl. rewrite S2. reflexivity. }
  assert (R3 : run_calls memo [(aa, ak); (ba, bk); (ca, ck)] w = w3).
  { simpl. rewrite S1. simpl. rewrite S2. simpl. rewrite S3. reflexivity. }
  (* what each of the three calls does after them *)
  assert (A4 : memo aa ak w3
               = (Ret va, mkWorld [(kc, vc); (ka, va)] (S (num_calls w3))
                            (stdout w3 ++ [call_line name (S (num_calls w3))]))).
  { unfold memo.
    rewrite (lru_counted_miss name f aa ak w3 va [(kb, vb); (kc, vc)]);
      try (assumption || reflexivity).
    - lru_simpl; fold ka. rewrite Nba, Nca. reflexivity.
    - lru_simpl; fold ka. rewrite Nba, Nca. reflexivity. }
  assert (B4 : memo ba bk w3
               = (Ret vb, mkWorld [(kc, vc); (kb, vb)] (num_calls w3)
                            (stdout w3))).
  { unfold memo.
    rewrite (lru_counted_hit name f ba bk w3 vb [(kb, vb); (kc, vc)]);
      try (assumption || reflexivity).
    - lru_simpl; fold kb. rewrite Rbb. reflexivity.
    - lru_simpl; fold kb. rewrite Rbb. reflexivity. }
  assert (C4 : memo ca ck w3
               = (Ret vc, mkWorld [(kb, vb); (kc, vc)] (num_calls w3)
                            (stdout w3))).
  { unfold memo.
    rewrite (lru_counted_hit name f ca ck w3 vc [(kb, vb); (kc, vc)]);
      try (assumption || reflexivity).
    - lru_simpl; fold kc. rewrite Nbc, Rcc. reflexivity.
    - lru_simpl; fold kc. rewrite Nbc, Rcc. reflexivity. }
  assert (C5 : memo ca ck (mkWorld [(kc, vc); (kb, vb)] (num_calls w3)
                             (stdout w3))
               = (Ret vc, mkWorld [(kb, vb); (kc, vc)] (num_calls w3)
                            (stdout w3))).
  { unfold memo.
    rewrite (lru_counted_hit name f ca ck _ vc [(kc, vc); (kb, vb)]);
      try (assumption || reflexivity).
    - lru_simpl; fold kc. rewrite Rcc. reflexivity.
    - lru_simpl; fold kc. rewrite Rcc. reflexivity. }
  assert (B5 : memo ba bk (mkWorld [(kb, vb); (kc, vc)] (num_calls w3)
                             (stdout w3))
               = (Ret vb, mkWorld [(kc, vc); (kb, vb)] (num_calls w3)
                            (stdout w3))).
  { unfold memo.
    rewrite (lru_counted_hit name f ba bk _ vb [(kb, vb); (kc, vc)]);
      try (assumption || reflexivity).
    - lru_simpl; fold kb. rewrite Rbb. reflexivity.
    - lru_simpl; fold kb. rewrite Rbb. reflexivity. }
  rewrite R2, R3.
  split; [reflexivity|]. split; [reflexivity|].
  split; [unfold w3; cbn [cache dict_contains]; rewrite Nba, Nca; reflexivity|].
  split; [simpl; lia|].
  rewrite A4, B4, C4.
  split; [split; [reflexivity|simpl; lia]|].
  split; [split; reflexivity|].
  split; [split; reflexivity|].
  split.
  - cbn [run_calls]. rewrite B4. cbn [snd run_calls]. rewrite C5. reflexivity.
  - cbn [run_calls]. rewrite C4. cbn [snd run_calls]. rewrite B5. reflexivity.
Qed.

(* ===================================================================== *)
(** ** The singleton decorator *)
(* ===================================================================== *)

(** Once a true instance is stored, every call returns it and nothing is
    built. *)
Lemma singleton_run_stored cls o calls : forall s,
  Singleton.instance s = Some o -> Singleton.obj_truthy o = true ->
  Singleton.run cls calls s = (map (fun _ => Ret (Some o)) calls, s).
Proof.
  induction calls as [|[a k] calls IH]; intros s I T; [reflexivity|].
  cbn [Singleton.run map].
  unfold Singleton.wrapper_singleton, Singleton.instance_truthy.
  rewrite I, T. cbn [negb]. rewrite (IH s I T). reflexivity.
Qed.

(** While the class builds false instances, every call builds one more. *)
Lemma singleton_run_falsy cls calls : forall s,
  (forall a k, cls a k = Ret false) ->
  Singleton.instance_truthy s = false ->
  fst (Singleton.run cls calls s)
  = map (fun i => Ret (Some (Singleton.mkObj i false)))
      (seq (Singleton.constructed s) (List.length calls)) /\
  Singleton.constructed (snd (Singleton.run cls calls s))
  = (Singleton.constructed s + List.length calls)%nat.
Proof.
  induction calls as [|[a k] calls IH]; intros s F T.
  - split; [reflexivity|simpl; lia].
  - cbn [Singleton.run List.length seq map].
    unfold Singleton.wrapper_singleton, Singleton.construct.
    rewrite T, F. cbn [negb].
    destruct (IH (Singleton.mkState
                    (Some (Singleton.mkObj (Singleton.constructed s) false))
                    (S (Singleton.constructed s))) F eq_refl) as [R C].
    destruct (Singleton.run cls calls _) as [rs s2]. simpl in *.
    split; [rewrite R; reflexivity|lia].
Qed.

(** C10.  If the instance built by the first call is true, every call of
    the sequence returns that one instance and the class was instantiated
    once.  If the class builds false instances, each call instantiates it
    again: the calls return instances with identities 0, 1, 2, ... and the
    class was instantiated as many times as it was called. *)
Theorem singleton_needs_truthy_instance (cls : Singleton.cls_t) :
  (forall args kwargs rest,
     cls args kwargs = Ret true ->
     Singleton.run cls ((args, kwargs) :: rest) Singleton.initial_state
     = (map (fun _ => Ret (Some (Singleton.mkObj 0 true)))
          ((args, kwargs) :: rest),
        Singleton.mkState (Some (Singleton.mkObj 0 true)) 1)) /\
  ((forall args kwargs, cls args kwargs = Ret false) ->
   forall calls,
     fst (Singleton.run cls calls Singleton.initial_state)
     = map (fun i => Ret (Some (Singleton.mkObj i false)))
         (seq 0 (List.length calls)) /\
     Singleton.constructed
       (snd (Singleton.run cls calls Singleton.initial_state))
     = List.length calls).
Proof.
  split.
  - intros args kwargs rest T. cbn [Singleton.run map].
    unfold Singleton.wrapper_singleton, Singleton.construct.
    cbn [Singleton.instance_truthy Singleton.initial_state
         Singleton.instance negb].
    rewrite T. cbn [Singleton.constructed].
    rewrite (singleton_run_stored cls (Singleton.mkObj 0 true) rest)
      by reflexivity.
    reflexivity.
  - intros F calls.
    apply (singleton_run_falsy cls calls Singleton.initial_state F eq_refl).
Qed.

(* ===================================================================== *)
(** ** The theorems at concrete calls *)
(* ===================================================================== *)

(** After the calls [(1)] and [(1, 2)], the call [(True)] shares the entry of
    [(1)], for which [count_positional] gives the same number. *)
Lemma cache_transparent_witness :
  let f := count_positional in
  let history : list call_t := [([VInt 1], []); ([VInt 1; VInt 2], [])] in
  hashable (make_key [VBool true] []) = true /\
  Forall (fun c => py_eqb (call_key c) (make_key [VBool true] []) = true ->
                   f (fst c) (snd c) = f [VBool true] []) history /\
  fst (wrapper_cache (pure_func f) [VBool true] []
         (run_calls (wrapper_cache (pure_func f)) history initial_world))
  = f [VBool true] [].
Proof.
  assert (H : hashable (make_key [VBool true] []) = true) by reflexivity.
  assert (A : Forall
                (fun c : call_t =>
                   py_eqb (call_key c) (make_key [VBool true] []) = true ->
                   count_positional (fst c) (snd c)
                   = count_positional [VBool true] [])
                [([VInt 1], []); ([VInt 1; VInt 2], [])]).
  { apply Forall_cons; [intros _; reflexivity|].
    apply Forall_cons; [simpl; intros E; discriminate E|].
    apply Forall_nil. }
  split; [exact H|]. split; [exact A|].
  exact (cache_transparent count_positional _ [VBool true] [] H A).
Defined.

(** The call [(3)] of a counted function, made twice from the start. *)
Lemma memo_second_call_is_hit_witness :
  let func := count_calls "f" (pure_func count_positional) in
  let w1 := mkWorld [(make_key [VInt 3] [], VInt 1)] 1 [call_line "f" 1] in
  wrapper_cache func [VInt 3] [] initial_world = (Ret (VInt 1), w1) /\
  (forall func2, wrapper_cache func2 [VInt 3] [] w1 = (Ret (VInt 1), w1)) /\
  (num_calls (snd (wrapper_cache func [VInt 3] [] w1))
   <= num_calls initial_world + 1)%nat.
Proof.
  assert (R : wrapper_cache (count_calls "f" (pure_func count_positional))
                [VInt 3] [] initial_world
              = (Ret (VInt 1),
                 mkWorld [(make_key [VInt 3] [], VInt 1)] 1 [call_line "f" 1]))
    by reflexivity.
  split; [exact R|].
  destruct (memo_second_call_is_hit
              (count_calls "f" (pure_func count_positional))
              [VInt 3] [] initial_world (VInt 1) _ R) as [Hit Cnt].
  split; [exact Hit|].
  exact (Cnt "f" (pure_func count_positional) eq_refl
           (fun a k s => eq_refl)).
Defined.

(** The calls [(1, x=2)] and [(1, x=3)] of [count_positional]. *)
Lemma distinct_args_distinct_entries_witness :
  let a := [VInt 1] in
  let kw1 := [("x", VInt 2)] in
  let kw2 := [("x", VInt 3)] in
  let memo := wrapper_cache (count_calls "f" (pure_func count_positional)) in
  calls_differ a kw1 a kw2 /\
  py_eqb (make_key a kw1) (make_key a kw2) = false /\
  dict_get (cache (snd (memo a kw2 initial_world))) (make_key a kw2)
  = Some (VInt 1) /\
  fst (memo a kw1 (snd (memo a kw2 initial_world))) = Ret (VInt 1) /\
  cache (snd (memo a kw1 (snd (memo a kw2 initial_world))))
  = cache initial_world ++ [(make_key a kw2, VInt 1); (make_key a kw1, VInt 1)].
Proof.
  assert (D : calls_differ [VInt 1] [("x", VInt 2)] [VInt 1] [("x", VInt 3)]).
  { left. split; [reflexivity|]. right. reflexivity. }
  destruct (distinct_args_distinct_entries
              [VInt 1] [("x", VInt 2)] [VInt 1] [("x", VInt 3)] D)
    as (K & _ & _ & T).
  destruct (T "f" count_positional initial_world (VInt 1) (VInt 1)
              eq_refl eq_refl eq_refl eq_refl eq_refl eq_refl)
    as (_ & G & _ & R & _ & E).
  split; [exact D|]. split; [exact K|]. split; [exact G|].
  split; [exact R|exact E].
Defined.

(** The call [(1)] of a function that always raises, from the start. *)
Lemma failure_not_memoized_witness :
  let func := pure_func always_fails in
  let e := UserError (VTuple [VInt 1]) in
  let key := make_key [VInt 1] [] in
  hashable key = true /\
  dict_contains (cache initial_world) key = false /\
  func [VInt 1] [] initial_world = (Raise e, initial_world) /\
  wrapper_cache func [VInt 1] [] initial_world = (Raise e, initial_world) /\
  (cache initial_world = cache initial_world ->
   dict_contains (cache initial_world) key = false /\
   forall func2,
     wrapper_cache func2 [VInt 1] [] initial_world
     = match func2 [VInt 1] [] initial_world with
       | (Ret r, w2) => (Ret r, store w2 key r)
       | (Raise e2, w2) => (Raise e2, w2)
       end).
Proof.
  split; [reflexivity|]. split; [reflexivity|]. split; [reflexivity|].
  exact (failure_not_memoized (pure_func always_fails) [VInt 1] []
           initial_world (UserError (VTuple [VInt 1])) initial_world
           eq_refl eq_refl eq_refl).
Defined.

(** The call [(1, [2], x=0)]: the second argument is a list. *)
Lemma unhashable_fails_fast_witness :
  let args := [VInt 1; VList [VInt 2]] in
  let kwargs := [("x", VInt 0)] in
  existsb (fun v => negb (hashable v)) (args ++ map snd kwargs) = true /\
  wrapper_cache (count_calls "f" (pure_func count_positional)) args kwargs
    initial_world
  = (Raise (TypeError "unhashable type: 'list'"), initial_world).
Proof.
  split; [reflexivity|].
  exact (unhashable_fails_fast (count_calls "f" (pure_func count_positional))
           [VInt 1; VList [VInt 2]] [("x", VInt 0)] initial_world eq_refl).
Defined.

(** The calls [(1, a=1, b=2)] and [(1, b=2, a=1)] of [count_positional],
    from the start. *)
Lemma keyword_order_sensitive_witness :
  let args := [VInt 1] in
  let kw1 := [("a", VInt 1); ("b", VInt 2)] in
  let kw2 := [("b", VInt 2); ("a", VInt 1)] in
  let memo := wrapper_cache (count_calls "f" (pure_func count_positional)) in
  let w1 := snd (memo args kw1 initial_world) in
  let w2 := snd (memo args kw2 w1) in
  Permutation kw1 kw2 /\
  NoDup (map fst kw1) /\
  kw1 <> kw2 /\
  py_eqb (make_key args kw1) (make_key args kw2) = false /\
  fst (memo args kw1 initial_world) = Ret (VInt 1) /\
  memo args kw1 w1 = (Ret (VInt 1), w1) /\
  dict_contains (cache w1) (make_key args kw2) = false /\
  fst (memo args kw2 w1) = Ret (VInt 1) /\
  num_calls w2 = (num_calls initial_world + 2)%nat /\
  cache w2
  = cache initial_world
    ++ [(make_key args kw1, VInt 1); (make_key args kw2, VInt 1)] /\
  dict_get (cache w2) (make_key args kw1) = Some (VInt 1) /\
  dict_get (cache w2) (make_key args kw2) = Some (VInt 1).
Proof.
  assert (P : Permutation [("a", VInt 1); ("b", VInt 2)]
                [("b", VInt 2); ("a", VInt 1)]) by apply perm_swap.
  assert (D : NoDup (map fst [("a", VInt 1); ("b", VInt 2)])).
  { simpl. constructor.
    - intros [E|[]]. discriminate.
    - constructor; [intros []|constructor]. }
  assert (N : [("a", VInt 1); ("b", VInt 2)]
              <> [("b", VInt 2); ("a", VInt 1)]) by discriminate.
  split; [exact P|]. split; [exact D|]. split; [exact N|].
  exact (keyword_order_sensitive "f" count_positional [VInt 1] _ _
           (VInt 1) (VInt 1) initial_world P D N
           eq_refl eq_refl eq_refl eq_refl eq_refl).
Defined.

(** The calls [(7)], [(7, 8)] and [(7, 8, 9)] of [count_positional]. *)
Lemma lru_eviction_maxsize_2_witness :
  let memo :=
    lru_wrapper (Some 2%nat) (count_calls "f" (pure_func count_positional)) in
  let A : call_t := ([VInt 7], []) in
  let B : call_t := ([VInt 7; VInt 8], []) in
  let C : call_t := ([VInt 7; VInt 8; VInt 9], []) in
  let w3 := run_calls memo [A; B; C] initial_world in
  cache (run_calls memo [A; B] initial_world)
    = [(call_key A, VInt 1); (call_key B, VInt 2)] /\
  cache w3 = [(call_key B, VInt 2); (call_key C, VInt 3)] /\
  dict_contains (cache w3) (call_key A) = false /\
  num_calls w3 = (num_calls initial_world + 3)%nat /\
  (fst (memo (fst A) (snd A) w3) = Ret (VInt 1) /\
   num_calls (snd (memo (fst A) (snd A) w3)) = (num_calls w3 + 1)%nat) /\
  (fst (memo (fst B) (snd B) w3) = Ret (VInt 2) /\
   num_calls (snd (memo (fst B) (snd B) w3)) = num_calls w3) /\
  (fst (memo (fst C) (snd C) w3) = Ret (VInt 3) /\
   num_calls (snd (memo (fst C) (snd C) w3)) = num_calls w3) /\
  num_calls (run_calls memo [B; C] w3) = num_calls w3 /\
  num_calls (run_calls memo [C; B] w3) = num_calls w3.
Proof.
  exact (lru_eviction_maxsize_2 "f" count_positional
           [VInt 7] [] [VInt 7; VInt 8] [] [VInt 7; VInt 8; VInt 9] []
           (VInt 1) (VInt 2) (VInt 3) initial_world
           eq_refl eq_refl eq_refl eq_refl eq_refl eq_refl eq_refl
           eq_refl eq_refl eq_refl).
Defined.

(** The call [(1, ('x', 2))] followed by [(1, x=2)]: the second returns 2,
    the cached result of the first, where the function gives 1. *)
Lemma positional_keyword_collision_witness :
  let func := count_calls "f" (pure_func count_positional) in
  let pair := VTuple [VStr "x"; VInt 2] in
  let w1 := mkWorld [(make_key [VInt 1; pair] [], VInt 2)] 1
              [call_line "f" 1] in
  wrapper_cache func [VInt 1; pair] [] initial_world = (Ret (VInt 2), w1) /\
  wrapper_cache func [VInt 1] [("x", VInt 2)] w1 = (Ret (VInt 2), w1) /\
  count_positional [VInt 1] [("x", VInt 2)] = Ret (VInt 1).
Proof.
  assert (R : wrapper_cache (count_calls "f" (pure_func count_positional))
                ([VInt 1] ++ [VTuple [VStr "x"; VInt 2]]) [] initial_world
              = (Ret (VInt 2),
                 mkWorld
                   [(make_key [VInt 1; VTuple [VStr "x"; VInt 2]] [], VInt 2)]
                   1 [call_line "f" 1])) by reflexivity.
  split; [exact R|]. split; [|reflexivity].
  exact (proj2 (proj2 (positional_keyword_collision [VInt 1] "x" (VInt 2)))
           _ _ _ _ R _).
Defined.

(** Three calls of [TheOne()] and three calls of a class with false
    instances. *)
Lemma singleton_needs_truthy_instance_witness :
  let calls : list call_t := [([], []); ([], []); ([], [])] in
  Singleton.TheOne [] [] = Ret true /\
  Singleton.run Singleton.TheOne calls Singleton.initial_state
  = (map (fun _ => Ret (Some (Singleton.mkObj 0 true))) calls,
     Singleton.mkState (Some (Singleton.mkObj 0 true)) 1) /\
  (forall args kwargs, Singleton.Empty args kwargs = Ret false) /\
  fst (Singleton.run Singleton.Empty calls Singleton.initial_state)
  = [Ret (Some (Singleton.mkObj 0 false));
     Ret (Some (Singleton.mkObj 1 false));
     Ret (Some (Singleton.mkObj 2 false))] /\
  Singleton.constructed
    (snd (Singleton.run Singleton.Empty calls Singleton.initial_state))
  = 3%nat.
Proof.
  assert (F : forall args kwargs, Singleton.Empty args kwargs = Ret false)
    by (intros; reflexivity).
  split; [reflexivity|].
  split.
  - exact (proj1 (singleton_needs_truthy_instance Singleton.TheOne)
             [] [] [([], []); ([], [])] eq_refl).
  - split; [exact F|].
    exact (proj2 (singleton_needs_truthy_instance Singleton.Empty) F
             [([], []); ([], []); ([], [])]).
Defined.

(* ===================================================================== *)
(** ** The Fibonacci cells for every argument *)
(* ===================================================================== *)

Lemma fibonacci_body_int self z w :
  fibonacci_body self [VInt z] [] w
  = if z <? 2 then (Ret (VInt z), w)
    else match self [VInt (z - 1)] [] w with
         | (Ret a, w1) =>
             match self [VInt (z - 2)] [] w1 with
             | (Ret b, w2) => (py_add a b, w2)
             | (Raise e, w2) => (Raise e, w2)
             end
         | (Raise e, w1) => (Raise e, w1)
         end.
Proof.
  unfold fibonacci_body, bind, lift_outcome, ret. simpl.
  destruct (z <? 2); [reflexivity|].
  destruct (self [VInt (z - 1)] [] w) as [[a|e] w1]; [|reflexivity].
  destruct (self [VInt (z - 2)] [] w1) as [[b|e] w2]; reflexivity.
Qed.

Lemma call_lines_app name first a b :
  call_lines name first a ++ call_lines name (first + a) b
  = call_lines name first (a + b).
Proof. unfold call_lines. rewrite <- map_app, <- seq_app. reflexivity. Qed.

Lemma naive_calls_fib n : (naive_calls n + 1 = 2 * fib (S n))%nat.
Proof.
  assert (H : (naive_calls n + 1 = 2 * fib (S n) /\
               naive_calls (S n) + 1 = 2 * fib (S (S n)))%nat).
  { induction n as [|n [IH1 IH2]]; [split; reflexivity|].
    split; [exact IH2|].
    change (naive_calls (S (S n))) with (1 + naive_calls (S n) + naive_calls n)%nat.
    change (fib (S (S (S n)))) with (fib (S (S n)) + fib (S n))%nat.
    lia. }
  apply H.
Qed.

Lemma fibonacci_counted_nat depth : forall n w,
  (n < depth)%nat ->
  fibonacci_counted depth [VInt (Z.of_nat n)] [] w
  = (Ret (VInt (Z.of_nat (fib n))),
     mkWorld (cache w) (num_calls w + naive_calls n)
       (stdout w ++ call_lines "fibonacci" (S (num_calls w)) (naive_calls n))).
Proof.
  induction depth as [|d IH]; intros n w L; [lia|].
  change (fibonacci_counted (S d) [VInt (Z.of_nat n)] [] w)
    with (fibonacci_body (fibonacci_counted d) [VInt (Z.of_nat n)] []
            (counted "fibonacci" w)).
  rewrite fibonacci_body_int.
  destruct n as [|[|k]].
  - simpl. unfold counted. repeat f_equal. lia.
  - simpl. unfold counted. repeat f_equal. lia.
  - replace (Z.of_nat (S (S k)) <? 2) with false
      by (symmetry; apply Z.ltb_ge; lia).
    replace (Z.of_nat (S (S k)) - 1) with (Z.of_nat (S k)) by lia.
    replace (Z.of_nat (S (S k)) - 2) with (Z.of_nat k) by lia.
    rewrite (IH (S k)) by lia. rewrite (IH k) by lia.
    cbn [cache num_calls stdout counted].
    change (naive_calls (S (S k)))
      with (1 + naive_calls (S k) + naive_calls k)%nat.
    change (fib (S (S k))) with (fib (S k) + fib k)%nat.
    cbn [py_add as_int]. rewrite <- Nat2Z.inj_add.
    f_equal. f_equal; [lia|].
    rewrite <- !app_assoc. f_equal.
    change ([call_line "fibonacci" (S (num_calls w))])
      with (call_lines "fibonacci" (S (num_calls w)) 1).
    replace (S (S (num_calls w))) with (S (num_calls w) + 1)%nat by lia.
    rewrite app_assoc, call_lines_app.
    replace (S (S (num_calls w) + naive_calls (S k)))
      with (S (num_calls w) + (1 + naive_calls (S k)))%nat by lia.
    rewrite call_lines_app. reflexivity.
Qed.

(** X1.  Under [@count_calls] alone (cell 49), with room for the nesting,
    [fibonacci(n)] for [n >= 0] returns the [n]-th Fibonacci number after
    exactly [2 * fib(n + 1) - 1] invocations, each of which printed its
    line; the cache is not involved. *)
Theorem naive_fibonacci_calls n depth w :
  (n < depth)%nat ->
  fibonacci_counted depth [VInt (Z.of_nat n)] [] w
  = (Ret (VInt (Z.of_nat (fib n))),
     mkWorld (cache w) (num_calls w + naive_calls n)
       (stdout w ++ call_lines "fibonacci" (S (num_calls w)) (naive_calls n)))
  /\ (naive_calls n + 1 = 2 * fib (S n))%nat.
Proof.
  intros L. split; [apply fibonacci_counted_nat; exact L|].
  apply naive_calls_fib.
Qed.

Lemma py_eqb_int_key a b : py_eqb (int_key a) (int_key b) = (a =? b).
Proof. simpl. apply andb_true_r. Qed.

Lemma dict_get_app d1 d2 k :
  dict_get (d1 ++ d2) k
  = match dict_get d1 k with Some v => Some v | None => dict_get d2 k end.
Proof.
  induction d1 as [|[k' v'] d1 IH]; simpl; [reflexivity|].
  destruct (py_eqb k' k); auto.
Qed.

Lemma fib_entries_get len : forall first k,
  dict_get (map fib_entry (seq first len)) (int_key (Z.of_nat k))
  = if ((first <=? k) && (k <? first + len))%nat
    then Some (VInt (Z.of_nat (fib k))) else None.
Proof.
  induction len as [|len IH]; intros first k.
  - simpl. destruct (first <=? k)%nat eqn:A; [|reflexivity].
    apply Nat.leb_le in A. simpl.
    replace (k <? first + 0)%nat with false
      by (symmetry; apply Nat.ltb_ge; lia).
    reflexivity.
  - cbn [seq map dict_get]. unfold fib_entry at 1. cbn [fst snd].
    rewrite py_eqb_int_key, IH.
    destruct (Z.eqb_spec (Z.of_nat first) (Z.of_nat k)) as [E|E].
    + apply Nat2Z.inj in E. subst k.
      rewrite Nat.leb_refl.
      replace (first <? first + S len)%nat with true
        by (symmetry; apply Nat.ltb_lt; lia).
      reflexivity.
    + assert (first <> k) by congruence.
      replace ((S first <=? k) && (k <? S first + len))%nat
        with ((first <=? k) && (k <? first + S len))%nat; [reflexivity|].
      destruct (Nat.leb_spec first k), (Nat.leb_spec (S first) k),
        (Nat.ltb_spec k (first + S len)), (Nat.ltb_spec k (S first + len));
        simpl; try reflexivity; lia.
Qed.

Lemma fib_cache_get n k :
  (2 <= n)%nat ->
  dict_get (fib_cache n) (int_key (Z.of_nat k))
  = if (k <=? n)%nat then Some (VInt (Z.of_nat (fib k))) else None.
Proof.
  intros N. unfold fib_cache. cbn [dict_get]. unfold fib_entry at 1 2.
  cbn [fst snd]. rewrite !py_eqb_int_key, fib_entries_get.
  destruct k as [|[|k]];
    [replace (0 <=? n)%nat with true
       by (symmetry; apply Nat.leb_le; lia); reflexivity
    |replace (1 <=? n)%nat with true
       by (symmetry; apply Nat.leb_le; lia); reflexivity|].
  replace (Z.of_nat 1 =? Z.of_nat (S (S k))) with false
    by (symmetry; apply Z.eqb_neq; lia).
  replace (Z.of_nat 0 =? Z.of_nat (S (S k))) with false
    by (symmetry; apply Z.eqb_neq; lia).
  replace (2 <=? S (S k))%nat with true by reflexivity.
  cbn [andb].
  destruct (S (S k) <=? n)%nat eqn:A.
  - apply Nat.leb_le in A.
    replace (S (S k) <? 2 + (n - 1))%nat with true
      by (symmetry; apply Nat.ltb_lt; lia).
    reflexivity.
  - apply Nat.leb_gt in A.
    replace (S (S k) <? 2 + (n - 1))%nat with false
      by (symmetry; apply Nat.ltb_ge; lia).
    reflexivity.
Qed.

Lemma fib_cache_S n :
  (2 <= n)%nat -> fib_cache (S n) = fib_cache n ++ [fib_entry (S n)].
Proof.
  intros N. unfold fib_cache.
  replace (S n - 1)%nat with ((n - 1) + 1)%nat by lia.
  rewrite seq_app, map_app. simpl.
  replace (S (S (n - 1))) with (S n) by lia. reflexivity.
Qed.

Lemma fibonacci_miss d z w :
  dict_get (cache w) (int_key z) = None ->
  fibonacci (S d) [VInt z] [] w
  = match fibonacci_body (fibonacci d) [VInt z] [] (counted "fibonacci" w) with
    | (Ret r, w1) => (Ret r, store w1 (int_key z) r)
    | (Raise e, w1) => (Raise e, w1)
    end.
Proof.
  intros G. cbn [fibonacci].
  rewrite wrapper_cache_miss;
    [reflexivity | reflexivity | rewrite dict_contains_get; fold (int_key z);
                                 rewrite G; reflexivity].
Qed.

Lemma fibonacci_hit d z w v :
  dict_get (cache w) (int_key z) = Some v ->
  fibonacci (S d) [VInt z] [] w = (Ret v, w).
Proof.
  intros G. cbn [fibonacci]. apply wrapper_cache_hit; [reflexivity|exact G].
Qed.

Lemma fibonacci_cached_nat n :
  (2 <= n)%nat ->
  forall depth w,
    (n < depth)%nat -> cache w = [] ->
    fibonacci depth [VInt (Z.of_nat n)] [] w
    = (Ret (VInt (Z.of_nat (fib n))),
       mkWorld (fib_cache n) (num_calls w + n + 1)
         (stdout w ++ call_lines "fibonacci" (S (num_calls w)) (n + 1))).
Proof.
  induction 1 as [|m N IH]; intros depth w L E.
  - (* fibonacci(2) on an empty cache: 1, then 0, are computed *)
    destruct depth as [|[|d]]; try lia.
    destruct w as [c nc out]. cbn [cache] in E. subst c.
    rewrite fibonacci_miss by reflexivity.
    rewrite fibonacci_body_int.
    change (Z.of_nat 2 <? 2) with false. cbv iota.
    change (Z.of_nat 2 - 1) with 1. change (Z.of_nat 2 - 2) with 0.
    rewrite fibonacci_miss by reflexivity.
    rewrite fibonacci_body_int. change (1 <? 2) with true. cbv iota.
    rewrite fibonacci_miss by reflexivity.
    rewrite fibonacci_body_int. change (0 <? 2) with true. cbv iota.
    cbn [py_add as_int]. unfold store, counted.
    cbn [cache num_calls stdout].
    f_equal. f_equal; [lia|].
    rewrite <- !app_assoc. reflexivity.
  - destruct depth as [|d]; [lia|].
    destruct m as [|k]; [lia|].
    rewrite fibonacci_miss by (rewrite E; reflexivity).
    rewrite fibonacci_body_int.
    replace (Z.of_nat (S (S k)) <? 2) with false
      by (symmetry; apply Z.ltb_ge; lia).
    replace (Z.of_nat (S (S k)) - 1) with (Z.of_nat (S k)) by lia.
    replace (Z.of_nat (S (S k)) - 2) with (Z.of_nat k) by lia.
    rewrite (IH d (counted "fibonacci" w)) by (try lia; exact E).
    destruct d as [|d']; [lia|].
    rewrite (fibonacci_hit d' (Z.of_nat k) _ (VInt (Z.of_nat (fib k)))).
    2:{ cbn [cache]. rewrite fib_cache_get by exact N.
        replace (k <=? S k)%nat with true
          by (symmetry; apply Nat.leb_le; lia).
        reflexivity. }
    cbn [py_add as_int]. rewrite <- Nat2Z.inj_add.
    change (fib (S k) + fib k)%nat with (fib (S (S k))).
    unfold store. cbn [cache num_calls stdout counted].
    rewrite dict_set_absent.
    2:{ rewrite dict_contains_get, fib_cache_get by exact N.
        replace (S (S k) <=? S k)%nat with false
          by (symmetry; apply Nat.leb_gt; lia).
        reflexivity. }
    rewrite (fib_cache_S (S k)) by exact N.
    f_equal. f_equal; [lia|].
    rewrite <- app_assoc. reflexivity.
Qed.

(** X2.  Under [@cache @count_calls] (cell 53), starting from an empty
    cache and with room for the nesting, [fibonacci(n)] for [n >= 2] returns
    the [n]-th Fibonacci number after exactly [n + 1] invocations of the
    counted function, and leaves one entry for each of 0..n in the
    dictionary, in the order 1, 0, 2, 3, ..., n. *)
Theorem cached_fibonacci_linear n depth w :
  (2 <= n)%nat -> (n < depth)%nat -> cache w = [] ->
  fibonacci depth [VInt (Z.of_nat n)] [] w
  = (Ret (VInt (Z.of_nat (fib n))),
     mkWorld (fib_cache n) (num_calls w + n + 1)
       (stdout w ++ call_lines "fibonacci" (S (num_calls w)) (n + 1))).
Proof. intros N L E. apply fibonacci_cached_nat; assumption. Qed.

(** X3.  Below 2 the cells return the argument itself after a single
    invocation and without recursion: negative numbers and booleans come
    back unchanged.  Under [@cache] the argument is then stored as the
    result for its key. *)
Theorem fibonacci_below_two v z d w :
  as_int v = Some z -> z < 2 ->
  fibonacci_counted (S d) [v] [] w = (Ret v, counted "fibonacci" w) /\
  (dict_contains (cache w) (make_key [v] []) = false ->
   fibonacci (S d) [v] [] w
   = (Ret v, store (counted "fibonacci" w) (make_key [v] []) v)).
Proof.
  intros A L.
  assert (B : forall self w0,
             fibonacci_body self [v] [] w0 = (Ret v, w0)).
  { intros self w0. unfold fibonacci_body, bind, lift_outcome, ret, py_lt.
    cbn [bind_num]. rewrite A. cbn [as_int].
    replace (z <? 2) with true by (symmetry; apply Z.ltb_lt; exact L).
    reflexivity. }
  split.
  - cbn [fibonacci_counted]. rewrite count_calls_run. apply B.
  - intros C. cbn [fibonacci].
    rewrite wrapper_cache_miss; [|destruct v; try discriminate; reflexivity|exact C].
    rewrite count_calls_run, B. reflexivity.
Qed.

(* ===================================================================== *)
(** ** More on the cache and the call counter *)
(* ===================================================================== *)

(** One call of the wrapper around an effect-free function leaves the
    dictionary alone or appends the entry of a key that was absent. *)
Lemma wrapper_cache_pure_appends f args kwargs w :
  cache (snd (wrapper_cache (pure_func f) args kwargs w)) = cache w \/
  (dict_contains (cache w) (make_key args kwargs) = false /\
   exists r, f args kwargs = Ret r /\
     cache (snd (wrapper_cache (pure_func f) args kwargs w))
     = cache w ++ [(make_key args kwargs, r)]).
Proof.
  destruct (hashable (make_key args kwargs)) eqn:H.
  2:{ rewrite wrapper_cache_unhashable by assumption. auto. }
  destruct (dict_get (cache w) (make_key args kwargs)) as [v0|] eqn:G.
  - rewrite (wrapper_cache_hit _ _ _ _ _ H G). auto.
  - assert (C : dict_contains (cache w) (make_key args kwargs) = false)
      by (rewrite dict_contains_get, G; reflexivity).
    rewrite wrapper_cache_miss by assumption.
    unfold pure_func, lift_outcome.
    destruct (f args kwargs) as [r|e]; simpl; [|auto].
    right. split; [exact C|]. exists r. split; [reflexivity|].
    apply dict_set_absent. exact C.
Qed.

(** X4.  The wrapper around an effect-free function only ever appends to
    its dictionary: after any further calls the old dictionary is a prefix
    of the new one, so no entry is removed, moved or overwritten and every
    stored result is still the one found for its key. *)
Theorem cache_only_grows f calls : forall w,
  exists added,
    cache (run_calls (wrapper_cache (pure_func f)) calls w)
    = cache w ++ added /\
    forall k v, dict_get (cache w) k = Some v ->
      dict_get (cache (run_calls (wrapper_cache (pure_func f)) calls w)) k
      = Some v.
Proof.
  induction calls as [|[args kwargs] calls IH]; intros w.
  - exists []. simpl. rewrite app_nil_r. auto.
  - cbn [run_calls].
    destruct (IH (snd (wrapper_cache (pure_func f) args kwargs w)))
      as (added & E & P).
    destruct (wrapper_cache_pure_appends f args kwargs w)
      as [S|(C & r & F & S)]; rewrite S in E, P.
    + exists added. auto.
    + exists ((make_key args kwargs, r) :: added). split.
      * rewrite E, <- app_assoc. reflexivity.
      * intros k v G. apply P. rewrite dict_get_app, G. reflexivity.
Qed.

Lemma count_calls_pure_num_calls name f args kwargs w :
  num_calls (snd (count_calls name (pure_func f) args kwargs w))
  = S (num_calls w).
Proof. reflexivity. Qed.

(** One call of the cached, counted, effect-free function: nothing changes,
    or one invocation that raised, or one invocation and one new entry. *)
Lemma cached_counted_step name f args kwargs w :
  let w' := snd (wrapper_cache (count_calls name (pure_func f)) args kwargs w) in
  (cache w' = cache w /\ num_calls w' = num_calls w) \/
  (cache w' = cache w /\ num_calls w' = S (num_calls w) /\
   exists e, f args kwargs = Raise e) \/
  (List.length (cache w') = S (List.length (cache w)) /\
   num_calls w' = S (num_calls w)).
Proof.
  intros w'. subst w'.
  destruct (hashable (make_key args kwargs)) eqn:H.
  2:{ rewrite wrapper_cache_unhashable by assumption. auto. }
  destruct (dict_get (cache w) (make_key args kwargs)) as [v0|] eqn:G.
  - rewrite (wrapper_cache_hit _ _ _ _ _ H G). auto.
  - assert (C : dict_contains (cache w) (make_key args kwargs) = false)
      by (rewrite dict_contains_get, G; reflexivity).
    rewrite wrapper_cache_miss by assumption.
    rewrite count_calls_run. unfold pure_func, lift_outcome.
    destruct (f args kwargs) as [r|e]; simpl.
    + right. right. rewrite dict_set_absent by exact C.
      rewrite length_app. simpl. split; [lia|reflexivity].
    + right. left. eauto.
Qed.

(** X5.  With [@cache] over [@count_calls] over an effect-free function,
    started with as many entries as counted invocations (in particular
    from the initial state), there are never more entries than invocations,
    and exactly as many when the function never raises: one invocation per
    stored key. *)
Theorem one_invocation_per_entry name f calls : forall w,
  List.length (cache w) = num_calls w ->
  let w' := run_calls (wrapper_cache (count_calls name (pure_func f))) calls w in
  (List.length (cache w') <= num_calls w')%nat /\
  ((forall args kwargs, exists r, f args kwargs = Ret r) ->
   List.length (cache w') = num_calls w').
Proof.
  induction calls as [|[args kwargs] calls IH]; intros w E.
  - simpl. split; [lia|auto].
  - cbn [run_calls].
    assert (G : forall w0,
               (List.length (cache w0) <= num_calls w0)%nat ->
               (List.length
                  (cache (run_calls
                            (wrapper_cache (count_calls name (pure_func f)))
                            calls w0))
                <= num_calls
                     (run_calls
                        (wrapper_cache (count_calls name (pure_func f)))
                        calls w0))%nat).
    { clear. induction calls as [|[a k] calls IH]; intros w0 L; [exact L|].
      cbn [run_calls]. apply IH.
      pose proof (cached_counted_step name f a k w0) as St.
      cbv zeta in St.
      destruct St as [[Ec En]|[(Ec & En & _)|[Ec En]]];
        rewrite ?Ec, ?En; lia. }
    pose proof (cached_counted_step name f args kwargs w) as St.
    cbv zeta in St.
    destruct St as [[Ec En]|[(Ec & En & e & Fe)|[Ec En]]].
    + apply IH. congruence.
    + split; [apply G; rewrite Ec, En; lia|].
      intros T. destruct (T args kwargs) as [r Fr]. congruence.
    + apply IH. congruence.
Qed.

(** X6.  [count_calls] counts every invocation, the ones that raise too:
    around a function that does not itself change the counter, any
    sequence of calls raises the counter by the number of calls. *)
Theorem count_calls_counts_every_call name g calls : forall w,
  (forall a k s, num_calls (snd (g a k s)) = num_calls s) ->
  num_calls (run_calls (count_calls name g) calls w)
  = (num_calls w + List.length calls)%nat.
Proof.
  induction calls as [|[args kwargs] calls IH]; intros w Hg.
  - simpl. lia.
  - cbn [run_calls List.length]. rewrite IH by exact Hg.
    rewrite count_calls_run, Hg. cbn [counted num_calls]. lia.
Qed.

(* ===================================================================== *)
(** ** [repeat] *)
(* ===================================================================== *)

(** X7.  With [num_times <= 0] the decorated function raises
    [UnboundLocalError] on every call, whatever it wraps: the wrapped
    function is not invoked and the state is untouched. *)
Theorem repeat_nonpositive_unbound num_times func args kwargs w :
  num_times <= 0 ->
  Repeat.wrapper_repeat num_times func args kwargs w
  = (Raise (builtin_exn "UnboundLocalError"
              "local variable 'value' referenced before assignment"), w).
Proof.
  intros L. unfold Repeat.wrapper_repeat.
  replace (Z.to_nat num_times) with 0%nat by lia. reflexivity.
Qed.

Lemma repeat_loop_counted_ret name f args kwargs r n : forall w val,
  f args kwargs = Ret r ->
  Repeat.loop (S n) (count_calls name (pure_func f)) args kwargs val w
  = (Ret (Some r),
     mkWorld (cache w) (num_calls w + S n)
       (stdout w ++ call_lines name (S (num_calls w)) (S n))).
Proof.
  induction n as [|n IH]; intros w val F.
  - cbn [Repeat.loop]. unfold bind. rewrite count_calls_run.
    unfold pure_func, lift_outcome, ret. rewrite F.
    unfold counted. f_equal. f_equal. lia.
  - change (Repeat.loop (S (S n)) (count_calls name (pure_func f))
              args kwargs val w)
      with (bind (count_calls name (pure_func f) args kwargs)
              (fun v => Repeat.loop (S n) (count_calls name (pure_func f))
                          args kwargs (Some v)) w).
    unfold bind at 1. rewrite count_calls_run.
    unfold pure_func at 1, lift_outcome at 1. rewrite F.
    rewrite IH by exact F. unfold counted. cbn [cache num_calls stdout].
    f_equal. f_equal; [lia|].
    rewrite <- app_assoc. reflexivity.
Qed.

(** X8.  For [num_times >= 1] around a counted effect-free function: when
    the function returns, it is invoked exactly [num_times] times and its
    result is returned; when it raises, the loop ends with that exception
    after the first invocation. *)
Theorem repeat_invokes_num_times name f num_times args kwargs w :
  1 <= num_times ->
  (forall r, f args kwargs = Ret r ->
     Repeat.wrapper_repeat num_times (count_calls name (pure_func f))
       args kwargs w
     = (Ret r,
        mkWorld (cache w) (num_calls w + Z.to_nat num_times)
          (stdout w
           ++ call_lines name (S (num_calls w)) (Z.to_nat num_times)))) /\
  (forall e, f args kwargs = Raise e ->
     Repeat.wrapper_repeat num_times (count_calls name (pure_func f))
       args kwargs w
     = (Raise e, counted name w)).
Proof.
  intros L. unfold Repeat.wrapper_repeat.
  destruct (Z.to_nat num_times) as [|n] eqn:E; [lia|].
  split.
  - intros r F. unfold bind.
    rewrite (repeat_loop_counted_ret name f args kwargs r n w None F).
    reflexivity.
  - intros e F. cbn [Repeat.loop]. unfold bind.
    rewrite count_calls_run. unfold pure_func, lift_outcome. rewrite F.
    reflexivity.
Qed.

Lemma repeat_loop_app func args kwargs a : forall b val w,
  Repeat.loop (a + b) func args kwargs val w
  = match Repeat.loop a func args kwargs val w with
    | (Ret val', w') => Repeat.loop b func args kwargs val' w'
    | (Raise e, w') => (Raise e, w')
    end.
Proof.
  induction a as [|a IH]; intros b val w; [reflexivity|].
  cbn [Nat.add Repeat.loop]. unfold bind.
  destruct (func args kwargs w) as [[v|e] w1]; [apply IH|reflexivity].
Qed.

(** After at least one iteration the variable is bound. *)
Lemma repeat_loop_bound func args kwargs n : forall v w,
  match Repeat.loop n func args kwargs (Some v) w with
  | (Ret None, _) => False
  | _ => True
  end.
Proof.
  induction n as [|n IH]; intros v w; [exact I|].
  cbn [Repeat.loop]. unfold bind.
  destruct (func args kwargs w) as [[v1|e] w1]; [apply IH|exact I].
Qed.

(** A run of at least one iteration, seen through the wrapper. *)
Lemma repeat_loop_wrapper func args kwargs n val w :
  Repeat.loop (S n) func args kwargs val w
  = match Repeat.wrapper_repeat (Z.of_nat (S n)) func args kwargs w with
    | (Ret v, w') => (Ret (Some v), w')
    | (Raise e, w') => (Raise e, w')
    end.
Proof.
  unfold Repeat.wrapper_repeat. rewrite Nat2Z.id.
  cbn [Repeat.loop]. unfold bind.
  destruct (func args kwargs w) as [[v|e] w1]; [|reflexivity].
  pose proof (repeat_loop_bound func args kwargs n v w1) as B.
  destruct (Repeat.loop n func args kwargs (Some v) w1) as [[[v'|]|e] w2];
    [reflexivity|contradiction|reflexivity].
Qed.

Lemma repeat_loop_nested func args kwargs n m : forall val w,
  Repeat.loop m (Repeat.wrapper_repeat (Z.of_nat (S n)) func) args kwargs val w
  = Repeat.loop (m * S n) func args kwargs val w.
Proof.
  induction m as [|m IH]; intros val w; [reflexivity|].
  change (S m * S n)%nat with (S n + m * S n)%nat.
  rewrite (repeat_loop_app func args kwargs (S n) (m * S n) val w).
  rewrite (repeat_loop_wrapper func args kwargs n val w).
  change (Repeat.loop (S m) (Repeat.wrapper_repeat (Z.of_nat (S n)) func)
            args kwargs val w)
    with (bind (Repeat.wrapper_repeat (Z.of_nat (S n)) func args kwargs)
            (fun v => Repeat.loop m
                        (Repeat.wrapper_repeat (Z.of_nat (S n)) func)
                        args kwargs (Some v)) w).
  unfold bind at 1.
  destruct (Repeat.wrapper_repeat (Z.of_nat (S n)) func args kwargs w)
    as [[v|e] w1]; [apply IH|reflexivity].
Qed.

(** X9.  Stacking the decorator multiplies: repeating [m] times a function
    that repeats [func] [n] times is repeating [func] [m * n] times, for
    [m, n >= 1] and any wrapped function, exceptions included. *)
Theorem repeat_nested_multiplies m n func args kwargs w :
  1 <= m -> 1 <= n ->
  Repeat.wrapper_repeat m (Repeat.wrapper_repeat n func) args kwargs w
  = Repeat.wrapper_repeat (m * n) func args kwargs w.
Proof.
  intros Lm Ln.
  destruct (Z.to_nat n) as [|n'] eqn:En; [lia|].
  replace n with (Z.of_nat (S n')) by lia.
  unfold Repeat.wrapper_repeat at 1 3. unfold bind.
  rewrite repeat_loop_nested.
  replace (Z.to_nat (m * Z.of_nat (S n'))) with (Z.to_nat m * S n')%nat
    by lia.
  reflexivity.
Qed.

(* ===================================================================== *)
(** ** [countdown] *)
(* ===================================================================== *)

Lemma countdown_step d z w :
  countdown (S d) [VInt z] [] w
  = if z <? 1 then (Ret VNone, printed w ["Liftoff!"])
    else match countdown d [VInt (z - 1)] [] (printed w [str_of_Z z]) with
         | (Ret _, w') => (Ret VNone, w')
         | (Raise e, w') => (Raise e, w')
         end.
Proof.
  cbn [countdown].
  unfold slow_down, time_sleep, countdown_body, bind, lift_outcome, ret, print.
  cbn [bind_one py_lt as_int str_of_num py_sub].
  destruct (z <? 1); [reflexivity|].
  unfold printed. cbn [cache num_calls stdout].
  destruct (countdown d [VInt (z - 1)] [] _) as [[v|e] w']; reflexivity.
Qed.

(** X10.  With room for the nesting, [countdown(n)] for [n >= 0] prints
    [n], [n - 1], ..., [1] and then [Liftoff!], returns [None] and changes
    nothing else; for any integer below 1 it prints [Liftoff!] only. *)
Theorem countdown_prints_down_to_liftoff :
  (forall n depth w,
     (n < depth)%nat ->
     countdown depth [VInt (Z.of_nat n)] [] w
     = (Ret VNone, printed w (countdown_lines n ++ ["Liftoff!"]))) /\
  (forall z d w,
     z < 1 ->
     countdown (S d) [VInt z] [] w = (Ret VNone, printed w ["Liftoff!"])).
Proof.
  split.
  - induction n as [|n IH]; intros depth w L.
    + destruct depth as [|d]; [lia|]. rewrite countdown_step. reflexivity.
    + destruct depth as [|d]; [lia|]. rewrite countdown_step.
      replace (Z.of_nat (S n) <? 1) with false
        by (symmetry; apply Z.ltb_ge; lia).
      replace (Z.of_nat (S n) - 1) with (Z.of_nat n) by lia.
      rewrite IH by lia. unfold printed. cbn [cache num_calls stdout].
      rewrite <- app_assoc. reflexivity.
  - intros z d w L. rewrite countdown_step.
    replace (z <? 1) with true by (symmetry; apply Z.ltb_lt; exact L).
    reflexivity.
Qed.

(* ===================================================================== *)
(** ** [Counter] *)
(* ===================================================================== *)

(** X11.  After [n] calls an instance created with [start] holds
    [start + n], and the calls printed the counts [start + 1], ...,
    [start + n] in order; nothing else changes. *)
Theorem counter_counts_calls n : forall self w,
  Counter.calls n self w
  = (Ret (Counter.mk (Counter.count self + Z.of_nat n)),
     printed w (Counter.lines n (Counter.count self))).
Proof.
  induction n as [|n IH]; intros [c] w.
  - cbn [Counter.calls Counter.lines Counter.count]. unfold ret, printed.
    rewrite app_nil_r, Z.add_0_r. destruct w; reflexivity.
  - change (Counter.calls (S n) (Counter.mk c) w)
      with (bind (Counter.call (Counter.mk c))
              (fun s => Counter.calls n s) w).
    unfold bind.
    change (Counter.call (Counter.mk c) w)
      with (Ret (Counter.mk (c + 1)),
            printed w [String.append "Current count is " (str_of_Z (c + 1))]).
    cbv beta iota. rewrite IH. cbn [Counter.count Counter.lines].
    unfold printed. cbn [cache num_calls stdout].
    rewrite <- app_assoc.
    replace (c + 1 + Z.of_nat n) with (c + Z.of_nat (S n)) by lia.
    reflexivity.
Qed.

(* ===================================================================== *)
(** ** [CountCalls] *)
(* ===================================================================== *)

Lemma attr_get_set d n v m :
  CountCalls.attr_get (CountCalls.attr_set d n v) m
  = if String.eqb n m then Some v else CountCalls.attr_get d m.
Proof.
  induction d as [|[k x] d IH]; simpl.
  - reflexivity.
  - destruct (String.eqb_spec k n) as [->|N]; simpl.
    + destruct (String.eqb n m); reflexivity.
    + destruct (String.eqb_spec k m) as [->|M].
      * destruct (String.eqb_spec n m); [congruence|reflexivity].
      * exact IH.
Qed.

Lemma attr_update_cons b k x d :
  CountCalls.attr_update b ((k, x) :: d)
  = CountCalls.attr_update (CountCalls.attr_set b k x) d.
Proof. reflexivity. Qed.

Lemma attr_get_update_absent d m : forall b,
  CountCalls.attr_get d m = None ->
  CountCalls.attr_get (CountCalls.attr_update b d) m = CountCalls.attr_get b m.
Proof.
  induction d as [|[k x] d IH]; intros b A; [reflexivity|].
  simpl in A. destruct (String.eqb k m) eqn:E; [discriminate|].
  rewrite attr_update_cons, IH by exact A.
  rewrite attr_get_set, E. reflexivity.
Qed.

Lemma attr_get_not_in d m :
  ~ In m (map fst d) -> CountCalls.attr_get d m = None.
Proof.
  induction d as [|[k x] d IH]; intros N; [reflexivity|].
  simpl in *. destruct (String.eqb_spec k m) as [->|]; [tauto|].
  apply IH. tauto.
Qed.

Lemma attr_get_update_present d m v : forall b,
  NoDup (map fst d) ->
  CountCalls.attr_get d m = Some v ->
  CountCalls.attr_get (CountCalls.attr_update b d) m = Some v.
Proof.
  induction d as [|[k x] d IH]; intros b D A; [discriminate|].
  simpl in A, D. inversion D as [|? ? Nin D']; subst.
  rewrite attr_update_cons.
  destruct (String.eqb_spec k m) as [->|N].
  - injection A as ->.
    rewrite (attr_get_update_absent d m) by (apply attr_get_not_in; exact Nin).
    rewrite attr_get_set, String.eqb_refl. reflexivity.
  - apply IH; assumption.
Qed.

(** X12.  The initialiser sets [num_call] while the call increments
    [num_calls]: unless the wrapped function's own [__dict__] has an
    attribute [num_calls], every call of the decorated function raises
    [AttributeError], the wrapped function is never invoked, nothing is
    printed and the instance stays as it was, [num_call] still 0. *)
Theorem countcalls_missing_attribute f cs w :
  CountCalls.attr_get (CountCalls.fn_dict f) "num_calls" = None ->
  CountCalls.run (CountCalls.init f) cs w
  = (map (fun _ =>
            Raise (builtin_exn "AttributeError"
                     "'CountCalls' object has no attribute 'num_calls'")) cs,
     (CountCalls.init f, w)) /\
  CountCalls.attr_get (CountCalls.attrs (CountCalls.init f)) "num_call"
  = Some (VInt 0).
Proof.
  intros A.
  assert (G : CountCalls.attr_get (CountCalls.attrs (CountCalls.init f))
                "num_calls" = None).
  { unfold CountCalls.init. cbn [CountCalls.attrs].
    rewrite attr_get_set. cbn [String.eqb Ascii.eqb Bool.eqb andb].
    rewrite attr_get_update_absent by exact A. reflexivity. }
  split.
  - induction cs as [|[args kwargs] cs IH]; [reflexivity|].
    cbn [CountCalls.run map]. unfold CountCalls.call at 1. rewrite G.
    rewrite IH. reflexivity.
  - unfold CountCalls.init. cbn [CountCalls.attrs].
    rewrite attr_get_set, String.eqb_refl. reflexivity.
Qed.

(** X13.  When the wrapped function's [__dict__] does carry a number under
    [num_calls], [update_wrapper] hands it to the instance: the first call
    counts on from that number, prints the line for it and then invokes the
    wrapped function. *)
Theorem countcalls_inherits_counter f v z args kwargs w :
  NoDup (map fst (CountCalls.fn_dict f)) ->
  CountCalls.attr_get (CountCalls.fn_dict f) "num_calls" = Some v ->
  as_int v = Some z ->
  CountCalls.call (CountCalls.init f) args kwargs w
  = (fst (CountCalls.fn_call f args kwargs
            (printed w [call_line_Z (CountCalls.fn_name f) (z + 1)])),
     (CountCalls.mk f
        (CountCalls.attr_set (CountCalls.attrs (CountCalls.init f))
           "num_calls" (VInt (z + 1))),
      snd (CountCalls.fn_call f args kwargs
             (printed w [call_line_Z (CountCalls.fn_name f) (z + 1)])))).
Proof.
  intros D A Z.
  assert (G : CountCalls.attr_get (CountCalls.attrs (CountCalls.init f))
                "num_calls" = Some v).
  { unfold CountCalls.init. cbn [CountCalls.attrs].
    rewrite attr_get_set. cbn [String.eqb Ascii.eqb Bool.eqb andb].
    apply attr_get_update_present; assumption. }
  unfold CountCalls.call. rewrite G, Z.
  change (CountCalls.func (CountCalls.init f)) with f.
  unfold bind, print, printed.
  destruct (CountCalls.fn_call f args kwargs _) as [r w']. reflexivity.
Qed.

(* ===================================================================== *)
(** ** [Circle] *)
(* ===================================================================== *)

(** X14.  Whatever values are assigned to [radius], one after the other,
    the instance ends as it started or with one of the assigned values
    that is a number not below 0: the setter never stores a negative
    number or a value that is not a number, and an assignment it rejects
    changes nothing.  (Zero is accepted, and the initialiser itself does
    not check.) *)
Theorem circle_setter_guard values : forall c,
  Circle.assign_all c values = c \/
  exists z,
    In (Circle.radius (Circle.assign_all c values)) values /\
    as_int (Circle.radius (Circle.assign_all c values)) = Some z /\
    0 <= z.
Proof.
  induction values as [|v values IH]; intros c; [left; reflexivity|].
  cbn [Circle.assign_all].
  destruct (Circle.set_radius c v) as [c'|e] eqn:S.
  - unfold Circle.set_radius in S.
    destruct (as_int v) as [z|] eqn:A; [|discriminate].
    destruct (0 <=? z) eqn:L; [|discriminate].
    injection S as <-. apply Z.leb_le in L.
    destruct (IH (Circle.mk v)) as [->|(z' & I & A' & L')].
    + right. exists z. cbn [Circle.radius Circle._radius].
      split; [left; reflexivity|]. split; assumption.
    + right. exists z'. split; [right; exact I|]. split; assumption.
  - destruct (IH c) as [->|(z' & I & A' & L')]; [left; reflexivity|].
    right. exists z'. split; [right; exact I|]. split; assumption.
Qed.

(* ===================================================================== *)
(** ** The plug-in registry *)
(* ===================================================================== *)

Lemma plugins_lookup_set r name p m :
  Plugins.lookup (Plugins.set r name p) m
  = if String.eqb name m then Some p else Plugins.lookup r m.
Proof.
  induction r as [|[k q] r IH]; simpl.
  - reflexivity.
  - destruct (String.eqb_spec k name) as [->|N]; simpl.
    + destruct (String.eqb name m); reflexivity.
    + destruct (String.eqb_spec k m) as [->|M].
      * destruct (String.eqb_spec name m); [congruence|reflexivity].
      * exact IH.
Qed.

Lemma plugins_set_length r name p :
  List.length (Plugins.set r name p)
  = match Plugins.lookup r name with
    | Some _ => List.length r
    | None => S (List.length r)
    end.
Proof.
  induction r as [|[k q] r IH]; simpl; [reflexivity|].
  destruct (String.eqb k name); simpl; [reflexivity|].
  rewrite IH. destruct (Plugins.lookup r name); reflexivity.
Qed.

(** X15.  [register] returns the function it was given; afterwards the
    registry maps the function's name to it and every other name as
    before; registering under a name already present replaces that entry,
    and under a new name adds one. *)
Theorem register_then_lookup func PLUGINS :
  fst (Plugins.register func PLUGINS) = func /\
  Plugins.lookup (snd (Plugins.register func PLUGINS))
    (Plugins.plugin_name func) = Some func /\
  (forall name,
     name <> Plugins.plugin_name func ->
     Plugins.lookup (snd (Plugins.register func PLUGINS)) name
     = Plugins.lookup PLUGINS name) /\
  List.length (snd (Plugins.register func PLUGINS))
  = match Plugins.lookup PLUGINS (Plugins.plugin_name func) with
    | Some _ => List.length PLUGINS
    | None => S (List.length PLUGINS)
    end.
Proof.
  unfold Plugins.register. cbn [fst snd].
  split; [reflexivity|]. split; [|split].
  - rewrite plugins_lookup_set, String.eqb_refl. reflexivity.
  - intros name N. rewrite plugins_lookup_set.
    destruct (String.eqb_spec (Plugins.plugin_name func) name);
      [congruence|reflexivity].
  - apply plugins_set_length.
Qed.

(** X16.  On an empty registry [randomly_greet] raises [IndexError] and
    prints nothing.  On a registry with entries, whatever the random
    source gives, it announces one registered name and returns what the
    function registered under that name returns; with the two greeters of
    the cell that is one of their two greetings. *)
Theorem randomly_greet_uses_a_plugin rand name w :
  Plugins.randomly_greet [] rand name w
  = (Raise (builtin_exn "IndexError" "Cannot choose from an empty sequence"),
     w) /\
  (forall PLUGINS,
     PLUGINS <> [] ->
     exists greeter greeter_func,
       In (greeter, greeter_func) PLUGINS /\
       Plugins.randomly_greet PLUGINS rand name w
       = (Ret (Plugins.plugin_call greeter_func name),
          printed w [String.append "Using '" (String.append greeter "'")])) /\
  (Plugins.randomly_greet Plugins.notebook_registry rand name w
   = (Ret (String.append "Hello " name), printed w ["Using 'say_hello'"]) \/
   Plugins.randomly_greet Plugins.notebook_registry rand name w
   = (Ret (String.append "Yo "
             (String.append name ", together we can be awesomest!")),
      printed w ["Using 'be_awesome'"])).
Proof.
  split; [|split].
  - unfold Plugins.randomly_greet, Plugins.random_choice, bind, lift_outcome.
    cbn [List.length]. destruct (rand mod 0)%nat; reflexivity.
  - intros PLUGINS N.
    assert (L : (rand mod List.length PLUGINS < List.length PLUGINS)%nat).
    { apply Nat.mod_upper_bound. destruct PLUGINS; [congruence|discriminate]. }
    destruct (nth_error PLUGINS (rand mod List.length PLUGINS))
      as [[greeter greeter_func]|] eqn:E.
    + exists greeter, greeter_func. split; [eapply nth_error_In; exact E|].
      unfold Plugins.randomly_greet, Plugins.random_choice, bind, lift_outcome.
      rewrite E. reflexivity.
    + apply nth_error_None in E. lia.
  - unfold Plugins.randomly_greet, Plugins.random_choice, bind, lift_outcome.
    change (List.length Plugins.notebook_registry) with 2%nat.
    assert (L : (rand mod 2 < 2)%nat) by (apply Nat.mod_upper_bound; lia).
    destruct (rand mod 2)%nat as [|[|k]]; [left|right|lia]; reflexivity.
Qed.

(* ===================================================================== *)
(** ** These theorems at concrete calls *)
(* ===================================================================== *)

(** [fibonacci(10)] of cell 49 with room for eleven nested calls. *)
Lemma naive_fibonacci_calls_witness :
  (10 < 11)%nat /\
  fibonacci_counted 11 [VInt (Z.of_nat 10)] [] initial_world
  = (Ret (VInt (Z.of_nat (fib 10))),
     mkWorld (cache initial_world) (num_calls initial_world + naive_calls 10)
       (stdout initial_world
        ++ call_lines "fibonacci" (S (num_calls initial_world))
             (naive_calls 10)))
  /\ (naive_calls 10 + 1 = 2 * fib (S 10))%nat.
Proof.
  assert (L : (10 < 11)%nat) by lia.
  split; [exact L|].
  exact (naive_fibonacci_calls 10 11 initial_world L).
Defined.

(** [fibonacci(10)] of cell 53 on the empty cache. *)
Lemma cached_fibonacci_linear_witness :
  (2 <= 10)%nat /\ (10 < 11)%nat /\ cache initial_world = [] /\
  fibonacci 11 [VInt (Z.of_nat 10)] [] initial_world
  = (Ret (VInt (Z.of_nat (fib 10))),
     mkWorld (fib_cache 10) (num_calls initial_world + 10 + 1)
       (stdout initial_world
        ++ call_lines "fibonacci" (S (num_calls initial_world)) (10 + 1))).
Proof.
  assert (N : (2 <= 10)%nat) by lia.
  assert (L : (10 < 11)%nat) by lia.
  split; [exact N|]. split; [exact L|]. split; [reflexivity|].
  exact (cached_fibonacci_linear 10 11 initial_world N L eq_refl).
Defined.

(** [fibonacci(-3)] in both cells. *)
Lemma fibonacci_below_two_witness :
  as_int (VInt (-3)) = Some (-3) /\ -3 < 2 /\
  fibonacci_counted 1 [VInt (-3)] [] initial_world
  = (Ret (VInt (-3)), counted "fibonacci" initial_world) /\
  dict_contains (cache initial_world) (make_key [VInt (-3)] []) = false /\
  fibonacci 1 [VInt (-3)] [] initial_world
  = (Ret (VInt (-3)),
     store (counted "fibonacci" initial_world) (make_key [VInt (-3)] [])
       (VInt (-3))).
Proof.
  assert (L : -3 < 2) by lia.
  destruct (fibonacci_below_two (VInt (-3)) (-3) 0 initial_world eq_refl L)
    as [A B].
  split; [reflexivity|]. split; [exact L|]. split; [exact A|].
  split; [reflexivity|]. exact (B eq_refl).
Defined.

(** The entry of the call [(1)] after the further call [(1, 2)]. *)
Lemma cache_only_grows_witness :
  let f := count_positional in
  let w := run_calls (wrapper_cache (pure_func f)) [([VInt 1], [])]
             initial_world in
  let calls : list call_t := [([VInt 1; VInt 2], [])] in
  dict_get (cache w) (make_key [VInt 1] []) = Some (VInt 1) /\
  dict_get (cache (run_calls (wrapper_cache (pure_func f)) calls w))
    (make_key [VInt 1] []) = Some (VInt 1).
Proof.
  split; [reflexivity|].
  destruct (cache_only_grows count_positional [([VInt 1; VInt 2], [])]
              (run_calls (wrapper_cache (pure_func count_positional))
                 [([VInt 1], [])] initial_world)) as (added & E & P).
  exact (P (make_key [VInt 1] []) (VInt 1) eq_refl).
Defined.

(** The calls [(1)], [(1)] and [(2)] of a function that never raises. *)
Lemma one_invocation_per_entry_witness :
  let memo := wrapper_cache (count_calls "f" (pure_func count_positional)) in
  let calls : list call_t := [([VInt 1], []); ([VInt 1], []); ([VInt 2], [])] in
  List.length (cache initial_world) = num_calls initial_world /\
  (forall args kwargs, exists r, count_positional args kwargs = Ret r) /\
  (List.length (cache (run_calls memo calls initial_world))
   <= num_calls (run_calls memo calls initial_world))%nat /\
  List.length (cache (run_calls memo calls initial_world))
  = num_calls (run_calls memo calls initial_world).
Proof.
  assert (T : forall args kwargs, exists r, count_positional args kwargs = Ret r)
    by (intros; eexists; reflexivity).
  destruct (one_invocation_per_entry "f" count_positional
              [([VInt 1], []); ([VInt 1], []); ([VInt 2], [])]
              initial_world eq_refl) as [A B].
  split; [reflexivity|]. split; [exact T|]. split; [exact A|exact (B T)].
Defined.

(** Three calls of a counted function that always raises. *)
Lemma count_calls_counts_every_call_witness :
  let g := pure_func always_fails in
  let calls : list call_t := [([], []); ([VInt 1], []); ([], [])] in
  (forall a k s, num_calls (snd (g a k s)) = num_calls s) /\
  num_calls (run_calls (count_calls "g" g) calls initial_world)
  = (num_calls initial_world + List.length calls)%nat.
Proof.
  assert (Hg : forall a k s,
             num_calls (snd (pure_func always_fails a k s)) = num_calls s)
    by (intros; reflexivity).
  split; [exact Hg|].
  exact (count_calls_counts_every_call "g" (pure_func always_fails)
           [([], []); ([VInt 1], []); ([], [])] initial_world Hg).
Defined.

(** [@repeat(num_times=0)] around [say_whee]. *)
Lemma repeat_nonpositive_unbound_witness :
  0 <= 0 /\
  Repeat.wrapper_repeat 0 say_whee [] [] initial_world
  = (Raise (builtin_exn "UnboundLocalError"
              "local variable 'value' referenced before assignment"),
     initial_world).
Proof.
  assert (L : 0 <= 0) by lia.
  split; [exact L|].
  exact (repeat_nonpositive_unbound 0 say_whee [] [] initial_world L).
Defined.

(** [@repeat(num_times=3)] around a counted function that returns, and
    around one that raises. *)
Lemma repeat_invokes_num_times_witness :
  1 <= 3 /\
  Repeat.wrapper_repeat 3 (count_calls "f" (pure_func count_positional))
    [VInt 7] [] initial_world
  = (Ret (VInt 1),
     mkWorld (cache initial_world) (num_calls initial_world + Z.to_nat 3)
       (stdout initial_world
        ++ call_lines "f" (S (num_calls initial_world)) (Z.to_nat 3))) /\
  Repeat.wrapper_repeat 3 (count_calls "f" (pure_func always_fails))
    [VInt 7] [] initial_world
  = (Raise (UserError (VTuple [VInt 7])), counted "f" initial_world).
Proof.
  assert (L : 1 <= 3) by lia.
  split; [exact L|]. split.
  - exact (proj1 (repeat_invokes_num_times "f" count_positional 3
                    [VInt 7] [] initial_world L) (VInt 1) eq_refl).
  - exact (proj2 (repeat_invokes_num_times "f" always_fails 3
                    [VInt 7] [] initial_world L)
             (UserError (VTuple [VInt 7])) eq_refl).
Defined.

(** [@repeat(num_times=2) @repeat(num_times=3)] around [say_whee]. *)
Lemma repeat_nested_multiplies_witness :
  1 <= 2 /\ 1 <= 3 /\
  Repeat.wrapper_repeat 2 (Repeat.wrapper_repeat 3 say_whee) [] []
    initial_world
  = Repeat.wrapper_repeat (2 * 3) say_whee [] [] initial_world.
Proof.
  assert (Lm : 1 <= 2) by lia.
  assert (Ln : 1 <= 3) by lia.
  split; [exact Lm|]. split; [exact Ln|].
  exact (repeat_nested_multiplies 2 3 say_whee [] [] initial_world Lm Ln).
Defined.

(** [countdown(3)] of the cell, and [countdown(-2)]. *)
Lemma countdown_prints_down_to_liftoff_witness :
  (3 < 4)%nat /\
  countdown 4 [VInt (Z.of_nat 3)] [] initial_world
  = (Ret VNone, printed initial_world (countdown_lines 3 ++ ["Liftoff!"])) /\
  -2 < 1 /\
  countdown 1 [VInt (-2)] [] initial_world
  = (Ret VNone, printed initial_world ["Liftoff!"]).
Proof.
  assert (L : (3 < 4)%nat) by lia.
  assert (N : -2 < 1) by lia.
  split; [exact L|]. split.
  - exact (proj1 countdown_prints_down_to_liftoff 3%nat 4%nat initial_world L).
  - split; [exact N|].
    exact (proj2 countdown_prints_down_to_liftoff (-2) 0%nat initial_world N).
Defined.

(** [@CountCalls def say_whee] of cell 40, called twice. *)
Lemma countcalls_missing_attribute_witness :
  let cs : list call_t := [([], []); ([], [])] in
  CountCalls.attr_get (CountCalls.fn_dict say_whee_function) "num_calls"
  = None /\
  CountCalls.run (CountCalls.init say_whee_function) cs initial_world
  = (map (fun _ =>
            Raise (builtin_exn "AttributeError"
                     "'CountCalls' object has no attribute 'num_calls'")) cs,
     (CountCalls.init say_whee_function, initial_world)) /\
  CountCalls.attr_get
    (CountCalls.attrs (CountCalls.init say_whee_function)) "num_call"
  = Some (VInt 0).
Proof.
  split; [reflexivity|].
  exact (countcalls_missing_attribute say_whee_function
           [([], []); ([], [])] initial_world eq_refl).
Defined.

(** [CountCalls] around a [say_whee] whose [__dict__] holds
    [num_calls = 5]. *)
Lemma countcalls_inherits_counter_witness :
  let f := CountCalls.mkFunc "__main__" "say_whee" VNone
             [("num_calls", VInt 5)] say_whee in
  NoDup (map fst (CountCalls.fn_dict f)) /\
  CountCalls.attr_get (CountCalls.fn_dict f) "num_calls" = Some (VInt 5) /\
  as_int (VInt 5) = Some 5 /\
  CountCalls.call (CountCalls.init f) [] [] initial_world
  = (fst (CountCalls.fn_call f [] []
            (printed initial_world
               [call_line_Z (CountCalls.fn_name f) (5 + 1)])),
     (CountCalls.mk f
        (CountCalls.attr_set (CountCalls.attrs (CountCalls.init f))
           "num_calls" (VInt (5 + 1))),
      snd (CountCalls.fn_call f [] []
             (printed initial_world
                [call_line_Z (CountCalls.fn_name f) (5 + 1)])))).
Proof.
  assert (D : NoDup (map fst [("num_calls", VInt 5)])).
  { simpl. constructor; [intros []|constructor]. }
  split; [exact D|]. split; [reflexivity|]. split; [reflexivity|].
  exact (countcalls_inherits_counter
           (CountCalls.mkFunc "__main__" "say_whee" VNone
              [("num_calls", VInt 5)] say_whee)
           (VInt 5) 5 [] [] initial_world D eq_refl eq_refl).
Defined.

(** Registering [be_awesome] after [say_hello]. *)
Lemma register_then_lookup_witness :
  let PLUGINS := snd (Plugins.register Plugins.say_hello []) in
  "say_hello" <> Plugins.plugin_name Plugins.be_awesome /\
  Plugins.lookup (snd (Plugins.register Plugins.be_awesome PLUGINS))
    "say_hello"
  = Plugins.lookup PLUGINS "say_hello" /\
  Plugins.lookup (snd (Plugins.register Plugins.be_awesome PLUGINS))
    "be_awesome"
  = Some Plugins.be_awesome.
Proof.
  assert (N : "say_hello" <> Plugins.plugin_name Plugins.be_awesome)
    by discriminate.
  destruct (register_then_lookup Plugins.be_awesome
              (snd (Plugins.register Plugins.say_hello [])))
    as (_ & A & B & _).
  split; [exact N|]. split; [exact (B "say_hello" N)|exact A].
Defined.

(** [randomly_greet("Alice")] with the registry of the cell. *)
Lemma randomly_greet_uses_a_plugin_witness :
  Plugins.notebook_registry <> [] /\
  exists greeter greeter_func,
    In (greeter, greeter_func) Plugins.notebook_registry /\
    Plugins.randomly_greet Plugins.notebook_registry 0 "Alice" initial_world
    = (Ret (Plugins.plugin_call greeter_func "Alice"),
       printed initial_world
         [String.append "Using '" (String.append greeter "'")]).
Proof.
  assert (N : Plugins.notebook_registry <> []) by discriminate.
  split; [exact N|].
  exact (proj1 (proj2 (randomly_greet_uses_a_plugin 0 "Alice" initial_world))
           Plugins.notebook_registry N).
Defined.
